(** * Farmer-Market: a shallow embedding of the Flask request handlers

    The development follows [src/main.py] and [src/config.py].  Every
    handler is a function in a small state-and-exception monad over a
    [world] that holds the session, the document store, the filesystem and
    the log of flashed messages.  External libraries (werkzeug's password
    hashing and filename sanitiser, Python's [float] and [int]) are taken
    as parameters; whatever the repository itself computes is transcribed
    from the source. *)

From Stdlib Require Import String Ascii ZArith List Lia.
From stdpp Require Import base option gmap strings list fin_maps pretty.

Local Open Scope string_scope.
Local Open Scope list_scope.

(** ** Python string operations used by the handlers *)

Module PyStr.

(** ['.' in s] for a one-character needle. *)
Fixpoint contains_char (c : ascii) (s : string) : bool :=
  match s with
  | EmptyString => false
  | String d r => if Ascii.eqb c d then true else contains_char c r
  end.

(** [s.rsplit(c, 1)]: one split at the last occurrence of [c]; a string
    without [c] comes back as the single element of the list. *)
Fixpoint rsplit1 (c : ascii) (s : string) : list string :=
  match s with
  | EmptyString => [EmptyString]
  | String d r =>
      match rsplit1 c r with
      | [a; b] => [String d a; b]
      | _ => if Ascii.eqb c d then [EmptyString; r] else [s]
      end
  end.

(** [str.lower] on the ASCII letters.  Python lowers other letters too,
    but no character outside A-Z lowers to one of the letters of the
    allow-list, so membership of a lowered extension in the allow-list is
    the same in both readings. *)
Definition lower_char (c : ascii) : ascii :=
  let n := nat_of_ascii c in
  if (65 <=? n)%nat && (n <=? 90)%nat then ascii_of_nat (n + 32) else c.

Fixpoint lower (s : string) : string :=
  match s with
  | EmptyString => EmptyString
  | String c r => String (lower_char c) (lower r)
  end.

(** [s.startswith(p)]. *)
Fixpoint startswith (p s : string) : bool :=
  match p, s with
  | EmptyString, _ => true
  | String a p', String b s' => Ascii.eqb a b && startswith p' s'
  | String _ _, EmptyString => false
  end.

(** [s.endswith(c)] for a one-character suffix. *)
Fixpoint endswith_char (c : ascii) (s : string) : bool :=
  match s with
  | EmptyString => false
  | String d EmptyString => Ascii.eqb c d
  | String _ r => endswith_char c r
  end.

(** Truthiness of a string: [bool(s)]. *)
Definition nonempty (s : string) : bool :=
  match s with EmptyString => false | _ => true end.

End PyStr.

(** [posixpath.join(a, b)] for two components. *)
Definition os_path_join (a b : string) : string :=
  if PyStr.startswith "/" b then b
  else if negb (PyStr.nonempty a) || PyStr.endswith_char "/" a then a +:+ b
  else a +:+ "/" +:+ b.

(** ** Configuration ([src/config.py]) *)

Definition ALLOWED_EXTENSIONS : gset string :=
  {[ "png"; "jpg"; "jpeg"; "gif" ]}.

(** [allowed_file] of [src/main.py].  The second conjunct is only evaluated
    when the name has a dot, so index 1 of the split always exists. *)
Definition allowed_file (filename : string) : bool :=
  PyStr.contains_char "." filename &&
  match PyStr.rsplit1 "." filename !! 1%nat with
  | Some ext => bool_decide (PyStr.lower ext ∈ ALLOWED_EXTENSIONS)
  | None => false
  end.

(** ** Values, documents and collections of the document store *)

(** [datetime] objects, as far as the handlers look at them. *)
Record datetime := {
  year : nat; month : nat; day : nat;
  hour : nat; minute : nat; second : nat
}.

Module Strftime.

Definition digit (n : nat) : ascii := ascii_of_nat (48 + n mod 10).

Definition pad2 (n : nat) : string :=
  String (digit (n / 10)) (String (digit n) EmptyString).

Definition pad4 (n : nat) : string :=
  String (digit (n / 1000)) (String (digit (n / 100)) (pad2 n)).

(** [strftime("%Y%m%d%H%M%S")] *)
Definition compact (t : datetime) : string :=
  pad4 (year t) +:+ pad2 (month t) +:+ pad2 (day t) +:+
  pad2 (hour t) +:+ pad2 (minute t) +:+ pad2 (second t).

(** [strftime("%Y%m%d_%H%M%S")] *)
Definition underscored (t : datetime) : string :=
  pad4 (year t) +:+ pad2 (month t) +:+ pad2 (day t) +:+ "_" +:+
  pad2 (hour t) +:+ pad2 (minute t) +:+ pad2 (second t).

End Strftime.

(** A [bson.ObjectId], kept as its canonical text: 24 lower-case
    hexadecimal digits, which is what [str] prints. *)
Definition ObjectId := string.

(** A Python [float], kept as the bit pattern of its binary64. *)
Record pyfloat := { float_bits : Z }.

(** What a field of a stored document, of the session or of a Python
    dictionary of the handlers can hold.  Sub-documents ([location],
    [social_links]) are one level deep and map a key to a string or to
    Python's [None], which is all the handlers ever build. *)
Inductive value :=
  | VStr (s : string)
  | VNone
  | VOid (o : ObjectId)
  | VDate (t : datetime)
  | VFloat (f : pyfloat)
  | VInt (n : Z)
  | VBool (b : bool)
  | VDoc (d : gmap string (option string)).

#[global] Instance datetime_eq_dec : EqDecision datetime.
Proof. solve_decision. Defined.
#[global] Instance pyfloat_eq_dec : EqDecision pyfloat.
Proof. solve_decision. Defined.
#[global] Instance value_eq_dec : EqDecision value.
Proof. solve_decision. Defined.

Abbreviation doc := (gmap string value).

(** [dict.get(k)] of a dictionary of strings, as a Python value. *)
Definition of_get (o : option string) : value :=
  match o with Some s => VStr s | None => VNone end.

(** Python truthiness, [bool(v)]. *)
Definition truthy (v : value) : bool :=
  match v with
  | VStr s => PyStr.nonempty s
  | VNone => false
  | VOid _ | VDate _ => true
  | VFloat f =>
      negb (bool_decide (float_bits f = 0%Z)
            || bool_decide (float_bits f = Z.shiftl 1 63))
  | VInt n => negb (bool_decide (n = 0%Z))
  | VBool b => b
  | VDoc d => negb (bool_decide (d = ∅))
  end.

(** [v == s] for a string literal [s]. *)
Definition eq_str (v : value) (s : string) : bool :=
  match v with VStr t => String.eqb t s | _ => false end.

Module Bson.

Definition is_hex (c : ascii) : bool :=
  let n := nat_of_ascii c in
  ((48 <=? n) && (n <=? 57) || (65 <=? n) && (n <=? 70) ||
   (97 <=? n) && (n <=? 102))%nat.

Fixpoint all_hex (s : string) : bool :=
  match s with
  | EmptyString => true
  | String c r => is_hex c && all_hex r
  end.

(** A string is a well-formed identifier when it is 24 hexadecimal
    digits. *)
Definition is_valid (s : string) : bool :=
  (String.length s =? 24)%nat && all_hex s.

Inductive error := InvalidId | TypeError.

(** [ObjectId(v)]: a string is parsed, an [ObjectId] is copied, anything
    else is a [TypeError]. *)
Definition parse (v : value) : ObjectId + error :=
  match v with
  | VStr s => if is_valid s then inl (PyStr.lower s) else inr InvalidId
  | VOid o => inl o
  | _ => inr TypeError
  end.

End Bson.

Module Mongo.

(** An equality filter [{k1: v1, ...}] matches a document that holds each
    [vi] under [ki]. *)
Definition matches (query d : doc) : bool :=
  bool_decide (map_Forall (λ (k : string) (v : value), d !! k = Some v) query).

(** [find(query)], in the store's natural (insertion) order. *)
Definition find (query : doc) (coll : list doc) : list doc :=
  List.filter (matches query) coll.

(** [find_one(query)] *)
Definition find_one (query : doc) (coll : list doc) : option doc :=
  head (find query coll).

(** [find_one(query, projection)] with an inclusion projection: [_id]
    and the listed fields are kept. *)
Definition project (fields : list string) (d : doc) : doc :=
  filter (λ kv : string * value, kv.1 = "_id" ∨ kv.1 ∈ fields) d.

(** [{'$set': upd}] on one document: the listed top-level fields are
    replaced, the others kept. *)
Definition apply_set (upd d : doc) : doc := upd ∪ d.

(** [update_one(query, {'$set': upd})]: the first matching document is
    updated.  The result is the new collection and [modified_count].  An
    empty [upd] changes nothing. *)
Fixpoint update_one (query upd : doc) (coll : list doc) : list doc * nat :=
  match coll with
  | [] => ([], 0%nat)
  | d :: rest =>
      if matches query d then
        let d' := apply_set upd d in
        (d' :: rest, if bool_decide (d' = d) then 0%nat else 1%nat)
      else
        let '(rest', n) := update_one query upd rest in (d :: rest', n)
  end.

(** [insert_one(d)]: a document without [_id] gets the fresh identifier
    the driver generates; a document whose [_id] is already taken is
    refused ([DuplicateKeyError]). *)
Definition insert_one (fresh : ObjectId) (d : doc) (coll : list doc)
  : option (list doc) :=
  let d' := match d !! "_id" with
            | Some _ => d
            | None => <["_id" := VOid fresh]> d
            end in
  match d' !! "_id" with
  | Some i =>
      if bool_decide (Exists (λ e : doc, e !! "_id" = Some i) coll) then None
      else Some (coll ++ [d'])
  | None => None
  end.

End Mongo.

(** ** The world a request runs in *)

(** The part of the filesystem the handlers touch: directories, and regular
    files with their content and permission bits. *)
Record filesystem := {
  dirs : gset string;
  files : gmap string (string * nat)
}.

Record world := {
  session : gmap string value;
  users : list doc;
  products : list doc;
  orders : list doc;
  fs : filesystem;
  flashed : list (string * string)  (* every [flash(message, category)] so far *)
}.

(** A submitted file of [request.files]. *)
Record upload := { filename : string; content : string }.

Record request := {
  method : string;
  form : gmap string string;      (* request.form, one value per key *)
  args : gmap string string;      (* request.args *)
  rfiles : gmap string upload     (* request.files *)
}.

(** What a request reads from its surroundings: the clocks, the salt drawn
    by the password hasher and the identifier the driver would generate. *)
Record env := {
  now : datetime;
  utcnow : datetime;
  salt : string;
  fresh_oid : ObjectId
}.

Inductive ctxval :=
  | CDocs (l : list doc)
  | CDoc (d : option doc).

Inductive response :=
  | Redirect (endpoint : string)          (* redirect(url_for(endpoint)) *)
  | RedirectBack                          (* redirect(request.url) *)
  | Render (template : string) (ctx : list (string * ctxval)).

(** ** A state monad with Python exceptions *)

Inductive exn :=
  | KeyError | IndexError | ValueError | TypeError | AttributeError
  | InvalidId | DuplicateKeyError | FileNotFoundError.

Inductive outcome (A : Type) :=
  | Ok (a : A)
  | Raise (e : exn).
Arguments Ok {A} a.
Arguments Raise {A} e.

Definition M (A : Type) : Type := world → outcome A * world.

#[global] Instance M_ret : MRet M := λ A a w, (Ok a, w).
#[global] Instance M_bind : MBind M := λ A B f m w,
  match m w with
  | (Ok a, w') => f a w'
  | (Raise e, w') => (Raise e, w')
  end.

#[global] Instance M_fmap : FMap M := λ A B f m w,
  match m w with
  | (Ok a, w') => (Ok (f a), w')
  | (Raise e, w') => (Raise e, w')
  end.

Definition raise {A} (e : exn) : M A := λ w, (Raise e, w).

(** [try: body except ...: handler]; a handler re-raises what its clause
    does not name. *)
Definition try_except {A} (body : M A) (handler : exn → M A) : M A := λ w,
  match body w with
  | (Ok a, w') => (Ok a, w')
  | (Raise e, w') => handler e w'
  end.

Definition gets {A} (f : world → A) : M A := λ w, (Ok (f w), w).
Definition modify (f : world → world) : M unit := λ w, (Ok tt, f w).

(** [k in d] *)
Definition has_key {V} (d : gmap string V) (k : string) : bool :=
  match d !! k with Some _ => true | None => false end.

(** [d[k]] *)
Definition getitem {V} (d : gmap string V) (k : string) : M V :=
  match d !! k with Some v => mret v | None => raise KeyError end.

(** [l[1]] *)
Definition index1 {V} (l : list V) : M V :=
  match l !! 1%nat with Some v => mret v | None => raise IndexError end.

Definition with_session (s : gmap string value) (w : world) : world :=
  {| session := s; users := users w; products := products w;
     orders := orders w; fs := fs w; flashed := flashed w |}.

Definition with_users (u : list doc) (w : world) : world :=
  {| session := session w; users := u; products := products w;
     orders := orders w; fs := fs w; flashed := flashed w |}.

Definition with_products (p : list doc) (w : world) : world :=
  {| session := session w; users := users w; products := p;
     orders := orders w; fs := fs w; flashed := flashed w |}.

Definition with_fs (f : filesystem) (w : world) : world :=
  {| session := session w; users := users w; products := products w;
     orders := orders w; fs := f; flashed := flashed w |}.

Definition with_flashed (l : list (string * string)) (w : world) : world :=
  {| session := session w; users := users w; products := products w;
     orders := orders w; fs := fs w; flashed := l |}.

Definition set_session (f : gmap string value → gmap string value) : M unit :=
  modify (λ w, with_session (f (session w)) w).

Definition set_users (u : list doc) : M unit := modify (with_users u).

Definition set_products (p : list doc) : M unit := modify (with_products p).

Definition set_fs (f : filesystem → filesystem) : M unit :=
  modify (λ w, with_fs (f (fs w)) w).

(** [flash(message, category)] *)
Definition flash (message category : string) : M unit :=
  modify (λ w, with_flashed (flashed w ++ [(message, category)]) w).

(** [session.clear()] *)
Definition session_clear : M unit := set_session (λ _, ∅).

Module Os.

(** [os.makedirs(p, exist_ok=True)] *)
Definition makedirs (p : string) : M unit :=
  set_fs (λ f, {| dirs := {[ p ]} ∪ dirs f; files := files f |}).

(** [file.save(os.path.join(dir, name))]: the directory has to exist; the
    file is created, or overwritten, with the permission bits a usual
    umask leaves ([0o644], which is 420). *)
Definition save (f : upload) (dir name : string) : M unit :=
  d ← gets (λ w, dirs (fs w));
  if bool_decide (dir ∈ d) then
    set_fs (λ s, {| dirs := dirs s;
                    files := <[os_path_join dir name := (content f, 420%nat)]> (files s) |})
  else raise FileNotFoundError.

(** [os.chmod(path, mode)] *)
Definition chmod (path : string) (mode : nat) : M unit :=
  fl ← gets (λ w, files (fs w));
  match fl !! path with
  | Some (c, _) =>
      set_fs (λ s, {| dirs := dirs s; files := <[path := (c, mode)]> (files s) |})
  | None => raise FileNotFoundError
  end.

(** [os.path.exists(path)] *)
Definition path_exists (s : filesystem) (path : string) : bool :=
  bool_decide (path ∈ dom (files s)) || bool_decide (path ∈ dirs s).

End Os.

(** ** Libraries the handlers call *)

(** werkzeug: the salted password hasher (the salt it draws is an
    argument), its verifier, and the filename sanitiser. *)
Class Werkzeug := {
  generate_password_hash : string → string → string;
  check_password_hash : string → string → bool;
  secure_filename : string → string
}.

(** Python's [float(s)] and [int(s)] ([None] is [ValueError]) and [str] of a
    value that is neither a string nor an identifier. *)
Class Builtins := {
  py_float : string → option pyfloat;
  py_int : string → option Z;
  py_repr : value → string
}.

(** [str(v)] *)
Definition py_str `{Builtins} (v : value) : string :=
  match v with
  | VStr s => s
  | VOid o => o
  | _ => py_repr v
  end.

(** [url_for('static', filename=f)] with Flask's default static route. *)
Definition url_for_static (f : string) : string := "/static/" +:+ f.

(** The configuration.  [src/config.py] fixes the upload folder and the
    allow-list; [basedir] is the directory of the application and
    [DEFAULT_IMAGES], which [main.py] reads and [config.py] leaves out, is
    the mapping from a role to its placeholder image. *)
Record config := {
  basedir : string;
  DEFAULT_IMAGES : gmap string string
}.

Definition static_folder (cfg : config) : string :=
  os_path_join (basedir cfg) "static".

Definition UPLOAD_FOLDER (cfg : config) : string :=
  os_path_join (os_path_join (basedir cfg) "static") "uploads".

(** ** The handlers of [src/main.py] *)

Section Handlers.

Context `{W : Werkzeug} `{B : Builtins}.
Variable cfg : config.
Variable ev : env.
Variable rq : request.

Definition validate_user_session : M (option ObjectId) :=
  s ← gets session;
  match s !! "user_id" with
  | None => mret None
  | Some v =>
      match Bson.parse v with
      | inl o => mret (Some o)
      | inr _ => session_clear;; mret None
      end
  end.

Definition index : M response :=
  try_except
    (featured_products ← gets (λ w, take 8 (Mongo.find ∅ (products w)));
     top_farmers ←
       gets (λ w, take 4 (Mongo.find {[ "user_type" := VStr "farmer" ]} (users w)));
     mret (Render "index.html"
             [("featured_products", CDocs featured_products);
              ("top_farmers", CDocs top_farmers)]))
    (λ _,
       flash "Error loading page" "error";;
       mret (Render "index.html"
               [("featured_products", CDocs []); ("top_farmers", CDocs [])])).

Definition register_required_fields : list string :=
  ["name"; "email"; "password"; "user_type"].

Definition register : M response :=
  if String.eqb (method rq) "POST" then
    let form_data : doc := VStr <$> form rq in
    if negb (forallb (has_key form_data) register_required_fields)
       || negb (has_key (rfiles rq) "profile_picture")
    then
      flash "Please fill all required fields including profile picture" "error";;
      mret (Redirect "register")
    else
      try_except
        (file ← getitem (rfiles rq) "profile_picture";
         if String.eqb (filename file) "" then
           flash "Profile picture is required" "error";;
           mret (Redirect "register")
         else if negb (allowed_file (filename file)) then
           flash "Only JPG, PNG files are allowed" "error";;
           mret (Redirect "register")
         else
           Os.makedirs (UPLOAD_FOLDER cfg);;
           let timestamp := Strftime.compact (now ev) in
           e ← index1 (PyStr.rsplit1 "." (secure_filename (filename file)));
           let ext := PyStr.lower e in
           let fname := "user_" +:+ timestamp +:+ "." +:+ ext in
           let filepath := os_path_join (UPLOAD_FOLDER cfg) fname in
           Os.save file (UPLOAD_FOLDER cfg) fname;;
           Os.chmod filepath 420;;
           let form_data := <["image_url" := VStr ("uploads/" +:+ fname)]> form_data in
           p ← getitem (form rq) "password";
           let form_data :=
             <["password" := VStr (generate_password_hash (salt ev) p)]> form_data in
           let form_data := <["created_at" := VDate (utcnow ev)]> form_data in
           ut ← getitem form_data "user_type";
           let form_data :=
             if eq_str ut "farmer" then
               <["location" := VDoc
                   {[ "address" := Some (default "" (form rq !! "address"));
                      "city" := Some (default "" (form rq !! "city"));
                      "state" := Some (default "" (form rq !! "state"));
                      "zipcode" := Some (default "" (form rq !! "zipcode")) ]}]>
                 (<["farm_name" := VStr (default "" (form rq !! "farm_name"))]>
                    form_data)
             else form_data in
           u ← gets users;
           match Mongo.insert_one (fresh_oid ev) form_data u with
           | Some u' =>
               set_users u';;
               flash "Account created successfully! Please login." "success";;
               mret (Redirect "login")
           | None => raise DuplicateKeyError
           end)
        (λ _,
           flash "Account creation failed. Please try again." "error";;
           mret (Redirect "register"))
  else mret (Render "auth/register.html" []).

Definition login : M response :=
  if String.eqb (method rq) "POST" then
    let email := form rq !! "email" in
    let password := form rq !! "password" in
    match email, password with
    | Some em, Some pw =>
        if negb (PyStr.nonempty em) || negb (PyStr.nonempty pw) then
          flash "Please enter both email and password" "error";;
          mret (Redirect "login")
        else
          try_except
            (user ← gets (λ w, Mongo.find_one {[ "email" := VStr em ]} (users w));
             ok ← match user with
                  | Some u =>
                      h ← getitem u "password";
                      match h with
                      | VStr h => mret (check_password_hash h pw)
                      | _ => raise AttributeError
                      end
                  | None => mret false
                  end;
             match user, ok with
             | Some u, true =>
                 i ← getitem u "_id";
                 set_session (<["user_id" := VStr (py_str i)]>);;
                 t ← getitem u "user_type";
                 set_session (<["user_type" := t]>);;
                 set_session (<["name" := default (VStr "User") (u !! "name")]>);;
                 flash "Login successful!" "success";;
                 mret (Redirect "dashboard")
             | _, _ =>
                 flash "Invalid email or password" "error";;
                 mret (Render "auth/login.html" [])
             end)
            (λ _,
               flash "Login failed. Please try again." "error";;
               mret (Render "auth/login.html" []))
    | _, _ =>
        flash "Please enter both email and password" "error";;
        mret (Redirect "login")
    end
  else mret (Render "auth/login.html" []).

Definition logout : M response :=
  session_clear;;
  flash "You have been logged out" "info";;
  mret (Redirect "index").

Definition dashboard : M response :=
  user_id ← validate_user_session;
  match user_id with
  | None =>
      flash "Please login to access dashboard" "warning";;
      mret (Redirect "login")
  | Some uid =>
      try_except
        (s ← gets session;
         t ← getitem s "user_type";
         if eq_str t "farmer" then
           ps ← gets (λ w, Mongo.find {[ "farmer_id" := VOid uid ]} (products w));
           os ← gets (λ w, Mongo.find {[ "farmer_id" := VOid uid ]} (orders w));
           mret (Render "farmers/dashboard.html"
                   [("products", CDocs ps); ("orders", CDocs os)])
         else
           os ← gets (λ w, Mongo.find {[ "customer_id" := VOid uid ]} (orders w));
           mret (Render "customers/dashboard.html" [("orders", CDocs os)]))
        (λ _,
           flash "Error loading dashboard" "error";;
           mret (Redirect "index"))
  end.

(** The filter [product_list] builds from [request.args]. *)
Definition product_list_query : doc :=
  let category := args rq !! "category" in
  if truthy (of_get category) then {[ "category" := of_get category ]} else ∅.

Definition product_list : M response :=
  try_except
    (ps ← gets (λ w, Mongo.find product_list_query (products w));
     mret (Render "products/list.html" [("products", CDocs ps)]))
    (λ _,
       flash "Error loading products" "error";;
       mret (Render "products/list.html" [("products", CDocs [])])).

Definition product_detail (product_id : string) : M response :=
  try_except
    (oid ← match Bson.parse (VStr product_id) with
           | inl o => mret o
           | inr Bson.InvalidId => raise InvalidId
           | inr Bson.TypeError => raise TypeError
           end;
     product ← gets (λ w, Mongo.find_one {[ "_id" := VOid oid ]} (products w));
     match product with
     | None =>
         flash "Product not found" "error";;
         mret (Redirect "product_list")
     | Some p =>
         fid ← getitem p "farmer_id";
         farmer ← gets (λ w, Mongo.find_one {[ "_id" := fid ]} (users w));
         mret (Render "products/detail.html"
                 [("product", CDoc (Some p)); ("farmer", CDoc farmer)])
     end)
    (λ e,
       match e with
       | InvalidId | TypeError =>
           flash "Invalid product ID" "error";;
           mret (Redirect "product_list")
       | _ =>
           flash "Error loading product" "error";;
           mret (Redirect "product_list")
       end).

Definition add_product_required_fields : list string :=
  ["name"; "category"; "price"; "quantity"; "description"].

Definition add_product : M response :=
  user_id ← validate_user_session;
  s ← gets session;
  match user_id with
  | Some uid =>
      if negb (eq_str (default VNone (s !! "user_type")) "farmer") then
        flash "Please login as a farmer to add products" "warning";;
        mret (Redirect "login")
      else if String.eqb (method rq) "POST" then
        if negb (forallb (has_key (form rq)) add_product_required_fields)
        then
          flash "Please fill all required fields" "error";;
          mret RedirectBack
        else
          try_except
            (name ← getitem (form rq) "name";
             category ← getitem (form rq) "category";
             price_s ← getitem (form rq) "price";
             price ← match py_float price_s with
                     | Some f => mret f | None => raise ValueError end;
             quantity_s ← getitem (form rq) "quantity";
             quantity ← match py_int quantity_s with
                        | Some n => mret n | None => raise ValueError end;
             description ← getitem (form rq) "description";
             mret (Some ({[ "name" := VStr name;
                            "category" := VStr category;
                            "price" := VFloat price;
                            "quantity" := VInt quantity;
                            "description" := VStr description;
                            "farmer_id" := VOid uid;
                            "created_at" := VDate (utcnow ev);
                            "is_organic" :=
                              VBool (has_key (form rq) "is_organic") ]}
                         : doc)))
            (λ e,
               match e with
               | ValueError | KeyError =>
                   flash "Invalid price or quantity" "error";;
                   mret None
               | _ => raise e
               end) ≫= λ parsed,
          match parsed with
          | None => mret RedirectBack
          | Some form_data =>
              match rfiles rq !! "image" with
              | None =>
                  flash "No file was submitted" "error";;
                  mret RedirectBack
              | Some file =>
                  if String.eqb (filename file) "" then
                    flash "No file selected" "error";;
                    mret RedirectBack
                  else if PyStr.nonempty (filename file)
                          && allowed_file (filename file) then
                    try_except
                      (let timestamp := Strftime.underscored (now ev) in
                       let original_filename := secure_filename (filename file) in
                       let fname := timestamp +:+ "_" +:+ original_filename in
                       let filepath := os_path_join (UPLOAD_FOLDER cfg) fname in
                       Os.save file (UPLOAD_FOLDER cfg) fname;;
                       Os.chmod filepath 420;;
                       let form_data :=
                         <["image_url" := VStr (url_for_static ("uploads/" +:+ fname))]>
                           form_data in
                       ps ← gets products;
                       match Mongo.insert_one (fresh_oid ev) form_data ps with
                       | Some ps' =>
                           set_products ps';;
                           flash "Product added successfully!" "success";;
                           mret (Redirect "dashboard")
                       | None => raise DuplicateKeyError
                       end)
                      (λ _,
                         flash "Error saving product image" "error";;
                         mret RedirectBack)
                  else
                    flash "Allowed file types: png, jpg, jpeg, gif" "error";;
                    mret RedirectBack
              end
          end
      else mret (Render "products/create.html" [])
  | None =>
      flash "Please login as a farmer to add products" "warning";;
      mret (Redirect "login")
  end.

(** The dictionary [update_profile] builds before it strips the [None]
    values. *)
Definition update_profile_data (s : gmap string value) : doc :=
  let update_data : doc :=
    {[ "name" := of_get (form rq !! "name");
       "email" := of_get (form rq !! "email");
       "phone" := of_get (form rq !! "phone");
       "description" := of_get (form rq !! "description") ]} in
  if eq_str (default VNone (s !! "user_type")) "farmer" then
    ({[ "farm_name" := of_get (form rq !! "farm_name");
        "location" := VDoc {[ "address" := form rq !! "address";
                              "city" := form rq !! "city";
                              "state" := form rq !! "state";
                              "zipcode" := form rq !! "zipcode" ]} ]} : doc)
      ∪ update_data
  else update_data.

Definition update_profile : M response :=
  user_id ← validate_user_session;
  match user_id with
  | None =>
      flash "Please login first" "warning";;
      mret (Redirect "login")
  | Some uid =>
      try_except
        (s ← gets session;
         let update_data := update_profile_data s in
         let update_data : doc := filter (λ kv, kv.2 ≠ VNone) update_data in
         u ← gets users;
         set_users (Mongo.update_one {[ "_id" := VOid uid ]} update_data u).1;;
         flash "Profile updated successfully!" "success")
        (λ _, flash "Failed to update profile" "error");;
      mret (Redirect "profile")
  end.

Definition update_profile_picture : M response :=
  user_id ← validate_user_session;
  match user_id with
  | None =>
      flash "Please login first" "warning";;
      mret (Redirect "login")
  | Some uid =>
      match rfiles rq !! "profile_picture" with
      | None =>
          flash "No file selected" "error";;
          mret (Redirect "profile")
      | Some file =>
          if String.eqb (filename file) "" then
            flash "No file selected" "error";;
            mret (Redirect "profile")
          else if negb (allowed_file (filename file)) then
            flash "Allowed file types: png, jpg, jpeg, gif" "error";;
            mret (Redirect "profile")
          else
            try_except
              (Os.makedirs (UPLOAD_FOLDER cfg);;
               let timestamp := Strftime.compact (now ev) in
               e ← index1 (PyStr.rsplit1 "." (secure_filename (filename file)));
               let ext := PyStr.lower e in
               let fname :=
                 "profile_" +:+ uid +:+ "_" +:+ timestamp +:+ "." +:+ ext in
               let filepath := os_path_join (UPLOAD_FOLDER cfg) fname in
               Os.save file (UPLOAD_FOLDER cfg) fname;;
               Os.chmod filepath 420;;
               let image_url := "uploads/" +:+ fname in
               u ← gets users;
               let result :=
                 Mongo.update_one {[ "_id" := VOid uid ]}
                   {[ "image_url" := VStr image_url ]} u in
               set_users result.1;;
               if (result.2 =? 1)%nat then
                 flash "Profile picture updated successfully!" "success"
               else
                 flash "Failed to update profile picture" "error")
              (λ _, flash "Error updating profile picture" "error");;
            mret (Redirect "profile")
      end
  end.

(** The dictionary [update_social_links] builds, empty values removed. *)
Definition social_links_data : gmap string (option string) :=
  let social_links : gmap string (option string) :=
    {[ "facebook" := form rq !! "facebook";
       "twitter" := form rq !! "twitter";
       "instagram" := form rq !! "instagram";
       "youtube" := form rq !! "youtube" ]} in
  filter (λ kv, truthy (of_get kv.2) = true) social_links.

Definition update_social_links : M response :=
  user_id ← validate_user_session;
  match user_id with
  | None => mret (Redirect "login")
  | Some uid =>
      try_except
        (u ← gets users;
         set_users
           (Mongo.update_one {[ "_id" := VOid uid ]}
              {[ "social_links" := VDoc social_links_data ]} u).1;;
         flash "Social links updated!" "success")
        (λ _, flash "Failed to update social links" "error");;
      mret (Redirect "profile")
  end.

Definition change_password : M response :=
  user_id ← validate_user_session;
  match user_id with
  | None => mret (Redirect "login")
  | Some uid =>
      try_except
        (current_password ← getitem (form rq) "current_password";
         new_password ← getitem (form rq) "new_password";
         confirm_password ← getitem (form rq) "confirm_password";
         if negb (String.eqb new_password confirm_password) then
           flash "New passwords do not match" "error"
         else
           user ← gets (λ w, Mongo.find_one {[ "_id" := VOid uid ]} (users w));
           ok ← match user with
                | Some u =>
                    h ← getitem u "password";
                    match h with
                    | VStr h => mret (check_password_hash h current_password)
                    | _ => raise AttributeError
                    end
                | None => mret false
                end;
           if negb ok then
             flash "Current password is incorrect" "error"
           else
             u ← gets users;
             set_users
               (Mongo.update_one {[ "_id" := VOid uid ]}
                  {[ "password" :=
                       VStr (generate_password_hash (salt ev) new_password) ]} u).1;;
             flash "Password updated successfully!" "success")
        (λ _, flash "Failed to change password" "error");;
      mret (Redirect "profile")
  end.

Definition profile_projection : list string :=
  ["name"; "email"; "phone"; "farm_name"; "location"; "image_url";
   "social_links"; "description"; "user_type"].

(** [d.setdefault(k, v)] *)
Definition setdefault (k : string) (v : value) (d : doc) : doc :=
  match d !! k with Some _ => d | None => <[k := v]> d end.

(** The role-based placeholder, [app.config['DEFAULT_IMAGES'][default_key]]. *)
Definition default_image (user : doc) : M string :=
  let default_key :=
    if eq_str (default VNone (user !! "user_type")) "farmer"
    then "farmer" else "profile" in
  getitem (DEFAULT_IMAGES cfg) default_key.

(** The image-resolution step of [profile]: the record that goes to the
    template. *)
Definition resolve_image (user : doc) : M doc :=
  if negb (truthy (default VNone (user !! "image_url"))) then
    img ← default_image user;
    mret (<["image_url" := VStr img]> user)
  else
    i ← getitem user "image_url";
    match i with
    | VStr url =>
        let image_path := os_path_join (static_folder cfg) url in
        f ← gets fs;
        if negb (Os.path_exists f image_path) then
          img ← default_image user;
          mret (<["image_url" := VStr img]> user)
        else mret user
    | _ => raise TypeError
    end.

Definition profile : M response :=
  try_except
    (user_id ← validate_user_session;
     match user_id with
     | None =>
         flash "Please login first" "warning";;
         mret (Redirect "login")
     | Some uid =>
         user ← gets (λ w,
           Mongo.project profile_projection
             <$> Mongo.find_one {[ "_id" := VOid uid ]} (users w));
         match user with
         | None =>
             session_clear;;
             flash "Account not found" "error";;
             mret (Redirect "register")
         | Some user =>
             i ← getitem user "_id";
             let user := <["_id" := VStr (py_str i)]> user in
             let user :=
               setdefault "location"
                 (VDoc {[ "address" := Some ""; "city" := Some "";
                          "state" := Some ""; "zipcode" := Some "" ]}) user in
             let user := setdefault "social_links" (VDoc ∅) user in
             let user := setdefault "description" (VStr "") user in
             user ← resolve_image user;
             let template :=
               if eq_str (default VNone (user !! "user_type")) "farmer"
               then "farmers/profile.html" else "customers/profile.html" in
             mret (Render template [("user", CDoc (Some user))])
         end
     end)
    (λ _,
       flash "Failed to load profile. Please try again." "error";;
       mret (Redirect "dashboard")).

End Handlers.

(** ** Routing *)

Inductive route :=
  | RIndex | RRegister | RLogin | RLogout | RDashboard
  | RProductList | RProductDetail (product_id : string) | RAddProduct
  | RUpdateProfile | RUpdateProfilePicture | RUpdateSocialLinks
  | RChangePassword | RProfile.

(** The [methods=] of each [@app.route]. *)
Definition route_methods (r : route) : list string :=
  match r with
  | RRegister | RLogin | RAddProduct => ["GET"; "POST"]
  | RUpdateProfile | RUpdateProfilePicture | RUpdateSocialLinks
  | RChangePassword => ["POST"]
  | _ => ["GET"]
  end.

(** One request.  [None] is the 405 that the router answers before any
    handler runs. *)
Definition handle `{Werkzeug} `{Builtins} (cfg : config) (ev : env)
    (rq : request) (r : route) : M (option response) :=
  if bool_decide (method rq ∈ route_methods r) then
    Some <$> match r with
             | RIndex => index
             | RRegister => register cfg ev rq
             | RLogin => login rq
             | RLogout => logout
             | RDashboard => dashboard
             | RProductList => product_list rq
             | RProductDetail i => product_detail i
             | RAddProduct => add_product cfg ev rq
             | RUpdateProfile => update_profile rq
             | RUpdateProfilePicture => update_profile_picture cfg ev rq
             | RUpdateSocialLinks => update_social_links rq
             | RChangePassword => change_password ev rq
             | RProfile => profile cfg
             end
  else mret None.

(** ** Vocabulary of the statements *)

Definition disallowed (name : string) : Prop :=
  PyStr.contains_char "." name = false ∨
  ∃ a b, name = a +:+ "." +:+ b ∧ PyStr.contains_char "." b = false ∧
         PyStr.lower b ∉ ALLOWED_EXTENSIONS.

Definition is_redirect (r : response) : Prop :=
  match r with Redirect _ | RedirectBack => True | Render _ _ => False end.

Definition store_unchanged (w w' : world) : Prop :=
  users w' = users w ∧ products w' = products w ∧ orders w' = orders w ∧
  fs w' = fs w.

Definition rejected (w : world) (res : outcome response * world) : Prop :=
  (∃ r, res.1 = Ok r ∧ is_redirect r) ∧
  (∃ m, flashed res.2 = flashed w ++ [m]) ∧
  store_unchanged w res.2.

(** A computation keeps a component [f] of the world when it returns with
    that component as it found it, whatever the outcome. *)
Definition keeps {A X} (f : world → X) (m : M A) : Prop :=
  ∀ w, f (m w).2 = f w.

Definition general_keys : list string :=
  ["name"; "email"; "phone"; "description"; "farm_name"].

(** The record [register] hands to [insert_one]. *)
Definition registered_doc `{Werkzeug} (ev : env) (rq : request)
    (fname p ut : string) : doc :=
  let d :=
    <["created_at" := VDate (utcnow ev)]>
      (<["password" := VStr (generate_password_hash (salt ev) p)]>
         (<["image_url" := VStr ("uploads/" +:+ fname)]> (VStr <$> form rq))) in
  if String.eqb ut "farmer" then
    <["location" := VDoc
        {[ "address" := Some (default "" (form rq !! "address"));
           "city" := Some (default "" (form rq !! "city"));
           "state" := Some (default "" (form rq !! "state"));
           "zipcode" := Some (default "" (form rq !! "zipcode")) ]}]>
      (<["farm_name" := VStr (default "" (form rq !! "farm_name"))]> d)
  else d.

Definition register_overwrites : list string :=
  ["password"; "image_url"; "created_at"; "location"].

Definition farmer_keys (ut : string) : gset string :=
  if String.eqb ut "farmer" then {[ "farm_name"; "location" ]} else ∅.



(** The users collection after the one write [change_password] performs. *)
Definition password_set `{Werkzeug} (ev : env) (w : world) (uid : ObjectId)
    (new : string) : list doc :=
  (Mongo.update_one {[ "_id" := VOid uid ]}
     {[ "password" := VStr (generate_password_hash (salt ev) new) ]}
     (users w)).1.

(** The record [profile] prepares before it resolves the image. *)
Definition profile_record `{Builtins} (d : doc) (i : value) : doc :=
  setdefault "description" (VStr "")
    (setdefault "social_links" (VDoc ∅)
       (setdefault "location"
          (VDoc {[ "address" := Some ""; "city" := Some "";
                   "state" := Some ""; "zipcode" := Some "" ]})
          (<["_id" := VStr (py_str i)]> (Mongo.project profile_projection d)))).

(** The template [profile] renders. *)
Definition profile_template (d : doc) : string :=
  if eq_str (default VNone (d !! "user_type")) "farmer"
  then "farmers/profile.html" else "customers/profile.html".

(** A request is made by a logged-in user when the session holds a
    well-formed [user_id]. *)
Definition logged_in (w : world) (uid : ObjectId) : Prop :=
  ∃ v, session w !! "user_id" = Some v ∧ Bson.parse v = inl uid.

(** The routes whose handler starts with [validate_user_session]. *)
Definition guarded (r : route) : bool :=
  match r with
  | RDashboard | RAddProduct | RUpdateProfile | RUpdateProfilePicture
  | RUpdateSocialLinks | RChangePassword | RProfile => true
  | _ => false
  end.

(** The record [add_product] builds from the form before the image is
    handled. *)
Definition product_doc (ev : env) (rq : request) (uid : ObjectId)
    (name category description : string) (price : pyfloat) (quantity : Z) : doc :=
  {[ "name" := VStr name;
     "category" := VStr category;
     "price" := VFloat price;
     "quantity" := VInt quantity;
     "description" := VStr description;
     "farmer_id" := VOid uid;
     "created_at" := VDate (utcnow ev);
     "is_organic" := VBool (has_key (form rq) "is_organic") ]}.

(** The session belongs to a farmer. *)
Definition farmer_session (w : world) : Prop :=
  eq_str (default VNone (session w !! "user_type")) "farmer" = true.

(** The form carries the five required product fields. *)
Definition product_form (rq : request) (nm cat ps qs ds : string) : Prop :=
  form rq !! "name" = Some nm ∧ form rq !! "category" = Some cat ∧
  form rq !! "price" = Some ps ∧ form rq !! "quantity" = Some qs ∧
  form rq !! "description" = Some ds.

(** The fields of a user record that no handler rewrites. *)
Definition immutable_fields : list string := ["_id"; "user_type"; "created_at"].

(** From [us] to [us'] no record disappeared or moved, and the fields [ks]
    of every record are as they were. *)
Definition records_kept (ks : list string) (us us' : list doc) : Prop :=
  ∀ i d, us !! i = Some d →
    ∃ d', us' !! i = Some d' ∧ ∀ k, k ∈ ks → d' !! k = d !! k.

#[global] Instance route_eq_dec : EqDecision route.
Proof. solve_decision. Defined.

(** The fields [profile] asks the store for, [image_url] apart. *)
Definition profile_fields : list string :=
  ["name"; "email"; "phone"; "farm_name"; "location"; "social_links";
   "description"; "user_type"].

(** The platforms [update_social_links] reads from the form. *)
Definition platforms : list string :=
  ["facebook"; "twitter"; "instagram"; "youtube"].

(** The key under which [default_image] looks up the placeholder. *)
Definition default_key (d : doc) : string :=
  if eq_str (default VNone (d !! "user_type")) "farmer"
  then "farmer" else "profile".

(** The stored image has to be replaced by the placeholder. *)
Definition image_missing (cfg : config) (w : world) (d : doc) : Prop :=
  truthy (default VNone (d !! "image_url")) = false ∨
  ∃ url, d !! "image_url" = Some (VStr url) ∧ url ≠ "" ∧
         Os.path_exists (fs w) (os_path_join (static_folder cfg) url) = false.

(** The [$set] document [update_profile] sends to the store. *)
Definition profile_update (rq : request) (w : world) : doc :=
  filter (λ kv : string * value, kv.2 ≠ VNone)
    (update_profile_data rq (session w)).


(** ** A concrete instance: stand-ins for the libraries and a small world *)

Module Sample.

(** A stand-in for werkzeug's hasher, in its [method$salt$digest] layout;
    the digest is a small polynomial checksum. *)
Fixpoint checksum (acc : N) (s : string) : N :=
  match s with
  | EmptyString => acc
  | String c r => checksum ((acc * 31 + N_of_ascii c) mod 1000003)%N r
  end.

Definition digest (salt p : string) : string :=
  pretty (checksum 7 (salt +:+ "$" +:+ p)).

Definition hash (salt p : string) : string :=
  "toy$" +:+ salt +:+ "$" +:+ digest salt p.

Definition check (h p : string) : bool :=
  match PyStr.rsplit1 "$" h with
  | [ms; d] =>
      match PyStr.rsplit1 "$" ms with
      | [_; s] => String.eqb d (digest s p)
      | _ => false
      end
  | _ => false
  end.

(** werkzeug's [secure_filename] on ASCII names without blanks: the
    characters outside [A-Za-z0-9_.-] are dropped, then dots and
    underscores are stripped from both ends. *)
Definition safe_char (c : ascii) : bool :=
  let n := nat_of_ascii c in
  ((48 <=? n) && (n <=? 57) || (65 <=? n) && (n <=? 90) ||
   (97 <=? n) && (n <=? 122) || (n =? 95) || (n =? 46) || (n =? 45))%nat.

Definition edge_char (c : ascii) : bool :=
  Ascii.eqb c "." || Ascii.eqb c "_".

Fixpoint keep_safe (s : string) : string :=
  match s with
  | EmptyString => EmptyString
  | String c r => if safe_char c then String c (keep_safe r) else keep_safe r
  end.

Fixpoint lstrip (s : string) : string :=
  match s with
  | String c r => if edge_char c then lstrip r else s
  | EmptyString => EmptyString
  end.

Fixpoint rstrip (s : string) : string :=
  match s with
  | String c r =>
      match rstrip r with
      | EmptyString => if edge_char c then EmptyString else String c EmptyString
      | r' => String c r'
      end
  | EmptyString => EmptyString
  end.

Definition secure (s : string) : string := rstrip (lstrip (keep_safe s)).

Definition werkzeug : Werkzeug :=
  {| generate_password_hash := hash;
     check_password_hash := check;
     secure_filename := secure |}.

Fixpoint digits (acc : Z) (s : string) : option Z :=
  match s with
  | EmptyString => Some acc
  | String c r =>
      let n := nat_of_ascii c in
      if ((48 <=? n) && (n <=? 57))%nat
      then digits (10 * acc + Z.of_nat (n - 48)) r else None
  end.

(** Python's [int] on plain decimal literals, [float] on the one literal
    the examples submit, and [str(None)]. *)
Definition builtins : Builtins :=
  {| py_float s :=
       if String.eqb s "12.5" then Some {| float_bits := 0x4029000000000000 |}
       else None;
     py_int s := if PyStr.nonempty s then digits 0 s else None;
     py_repr v := match v with VNone => "None" | _ => "" end |}.

Definition cfg : config :=
  {| basedir := "/srv/market";
     DEFAULT_IMAGES :=
       {[ "farmer" := "images/default-farmer.png";
          "profile" := "images/default-profile.png" ]} |}.

Definition ev : env :=
  {| now := {| year := 2024; month := 5; day := 17;
               hour := 10; minute := 30; second := 0 |};
     utcnow := {| year := 2024; month := 5; day := 17;
                  hour := 8; minute := 30; second := 0 |};
     salt := "NaCl";
     fresh_oid := "65f0a1b2c3d4e5f601234567" |}.

Definition empty_world : world :=
  {| session := ∅; users := []; products := []; orders := [];
     fs := {| dirs := ∅; files := ∅ |}; flashed := [] |}.

Definition post (fm : gmap string string) (fl : gmap string upload) : request :=
  {| method := "POST"; form := fm; args := ∅; rfiles := fl |}.

Definition alice_form : gmap string string :=
  {[ "name" := "Alice"; "email" := "alice@x.com"; "password" := "secret123";
     "user_type" := "farmer"; "farm_name" := "Green Acres" ]}.

Definition png : upload := {| filename := "me.png"; content := "PNG" |}.

Definition register_alice : outcome response * world :=
  @register werkzeug cfg ev (post alice_form {[ "profile_picture" := png ]})
    empty_world.

Definition bob_id : ObjectId := "65f0a1b2c3d4e5f6000000b0".

Definition bob : doc :=
  {[ "_id" := VOid bob_id;
     "name" := VStr "Bob";
     "email" := VStr "bob@x.com";
     "password" := VStr (hash "NaCl" "hunter2");
     "user_type" := VStr "farmer";
     "farm_name" := VStr "Bob's Farm";
     "location" := VDoc {[ "address" := Some "1 Farm Rd"; "city" := Some "Pune";
                           "state" := Some "MH"; "zipcode" := Some "411001" ]};
     "social_links" := VDoc {[ "twitter" := Some "https://twitter.com/bob" ]};
     "image_url" := VStr "uploads/user_20240101000000.png" ]}.

(** Bob is registered and logged in. *)
Definition bob_world : world :=
  {| session := {[ "user_id" := VStr bob_id; "user_type" := VStr "farmer";
                   "name" := VStr "Bob" ]};
     users := [bob]; products := []; orders := [];
     fs := {| dirs := {[ UPLOAD_FOLDER cfg ]};
              files := {[ "/srv/market/static/uploads/user_20240101000000.png"
                            := ("PNG", 420%nat) ]} |};
     flashed := [] |}.

End Sample.


(** * Verification *)

Example allowed_file_png : allowed_file "apple.PNG" = true.
Proof. vm_compute. reflexivity. Qed.

Example allowed_file_nodot : allowed_file "png" = false.
Proof. reflexivity. Qed.

Example allowed_file_exe : allowed_file "a.png.exe" = false.
Proof. vm_compute. reflexivity. Qed.

Ltac run :=
  unfold flash, session_clear, set_session, set_users, set_products, set_fs,
         getitem, index1 in *;
  unfold mbind, mret, M_bind, M_ret, raise, try_except, gets, modify in *.

(** Reduction restricted to the world's fields and the boolean connectives:
    the dictionaries of the handlers stay folded. *)
Ltac wsimpl :=
  cbn [with_flashed with_users with_fs with_products with_session
       users session products orders fs flashed dirs files
       negb andb orb fst snd].

Lemma validate_user_session_spec w :
  ∃ o s, validate_user_session w = (Ok o, with_session s w) ∧
    match o with
    | Some uid => s = session w ∧ ∃ v, session w !! "user_id" = Some v ∧ Bson.parse v = inl uid
    | None => True
    end.
Proof.
  unfold validate_user_session. run. simpl.
  destruct w as [s u p o f fl]; simpl.
  destruct (s !! "user_id") as [v|] eqn:E.
  - destruct (Bson.parse v) eqn:E2; simpl.
    + eexists _, s; split; [reflexivity|]. split; [done|]. exists v. done.
    + eexists None, _. split; [reflexivity|]. done.
  - exists None, s. done.
Qed.

Lemma rsplit1_absent c s :
  PyStr.contains_char c s = false → PyStr.rsplit1 c s = [s].
Proof.
  induction s as [|d r IH]; simpl; [done|].
  destruct (Ascii.eqb c d) eqn:E; [done|]. intros Hr. rewrite (IH Hr).
  destruct r; done.
Qed.

Lemma rsplit1_last c a b :
  PyStr.contains_char c b = false →
  PyStr.rsplit1 c (a +:+ String c b) = [a; b].
Proof.
  intros Hb. induction a as [|d a IH]; simpl.
  - rewrite (rsplit1_absent _ _ Hb). rewrite Ascii.eqb_refl. destruct b; done.
  - rewrite IH. done.
Qed.

Lemma contains_char_split c s :
  PyStr.contains_char c s = true →
  ∃ a b, s = a +:+ String c b ∧ PyStr.contains_char c b = false.
Proof.
  induction s as [|d r IH]; simpl; [done|].
  destruct (PyStr.contains_char c r) eqn:Hr.
  - intros _. destruct (IH eq_refl) as (a & b & -> & Hb).
    exists (String d a), b. done.
  - destruct (Ascii.eqb c d) eqn:E; [|done]. intros _.
    apply Ascii.eqb_eq in E as <-. exists "", r. done.
Qed.

Lemma allowed_file_false_iff name :
  allowed_file name = false ↔ disallowed name.
Proof.
  unfold allowed_file, disallowed. split.
  - destruct (PyStr.contains_char "." name) eqn:Hd; [|by left].
    destruct (contains_char_split _ _ Hd) as (a & b & -> & Hb).
    rewrite (rsplit1_last _ _ _ Hb). simpl. intros Hn. right.
    exists a, b. split_and!; [done..|]. by apply bool_decide_eq_false in Hn.
  - intros [->|(a & b & -> & Hb & Hn)]; [done|].
    change (a +:+ "." +:+ b) with (a +:+ String "." b).
    rewrite (rsplit1_last _ _ _ Hb). simpl.
    rewrite bool_decide_eq_false_2 by done. apply andb_false_r.
Qed.

Ltac rej :=
  unfold rejected, store_unchanged; simpl;
  split_and!;
  [ eexists; split; [reflexivity | exact I]
  | eexists; reflexivity
  | reflexivity .. ].

Section Rejection.
Context `{W : Werkzeug} `{B : Builtins}.
Variables (cfg : config) (ev : env) (rq : request) (w : world) (f : upload).
Hypothesis Hbad : allowed_file (filename f) = false.

Lemma register_rejects :
  method rq = "POST" → rfiles rq !! "profile_picture" = Some f →
  rejected w (register cfg ev rq w).
Proof using Hbad.
  intros Hm Hf. unfold register. rewrite Hm. simpl.
  destruct (negb _ || negb _).
  - run. simpl. rej.
  - run. rewrite Hf. simpl.
    destruct (String.eqb (filename f) ""); simpl.
    + rej.
    + rewrite Hbad. simpl. rej.
Qed.

Lemma update_profile_picture_rejects :
  rfiles rq !! "profile_picture" = Some f →
  rejected w (update_profile_picture cfg ev rq w).
Proof using Hbad.
  intros Hf. unfold update_profile_picture.
  destruct (validate_user_session_spec w) as (o & s & Hv & _).
  run. rewrite Hv. destruct o as [uid|]; simpl.
  - rewrite Hf. destruct (String.eqb (filename f) ""); simpl.
    + rej.
    + rewrite Hbad. simpl. rej.
  - rej.
Qed.

Lemma add_product_rejects :
  method rq = "POST" → rfiles rq !! "image" = Some f →
  rejected w (add_product cfg ev rq w).
Proof using Hbad.
  intros Hm Hf. unfold add_product.
  destruct (validate_user_session_spec w) as (o & s & Hv & _).
  run. rewrite Hv. simpl. destruct o as [uid|]; simpl; [|rej].
  destruct (negb (eq_str _ _)); simpl; [rej|].
  rewrite Hm. simpl.
  match goal with
  | |- context [if negb ?b then _ else _] => destruct b eqn:Hreq
  end; simpl; [|rej].
  unfold has_key in Hreq.
  destruct (form rq !! "name"); [|done].
  destruct (form rq !! "category"); [|done].
  destruct (form rq !! "price") as [ps|]; [|done].
  destruct (form rq !! "quantity") as [qs|]; [|done].
  destruct (form rq !! "description"); [|done]. simpl.
  destruct (py_float ps); simpl; [|rej].
  destruct (py_int qs); simpl; [|rej].
  rewrite Hf. destruct (String.eqb (filename f) ""); simpl; [rej|].
  rewrite Hbad, andb_false_r. rej.
Qed.
End Rejection.

(** Mongo lemmas *)
Section MongoFacts.
Implicit Types (q upd d : doc) (coll : list doc).

Lemma matches_empty d : Mongo.matches ∅ d = true.
Proof. unfold Mongo.matches. apply bool_decide_eq_true. apply map_Forall_empty. Qed.

Lemma matches_singleton k v d :
  Mongo.matches {[ k := v ]} d = bool_decide (d !! k = Some v).
Proof.
  unfold Mongo.matches. apply bool_decide_ext.
  by rewrite map_Forall_singleton.
Qed.

Lemma find_empty coll : Mongo.find ∅ coll = coll.
Proof.
  unfold Mongo.find. induction coll as [|d r IH]; simpl; [done|].
  rewrite matches_empty. by f_equal.
Qed.

Lemma update_one_length q upd coll :
  length (Mongo.update_one q upd coll).1 = length coll.
Proof.
  induction coll as [|d r IH]; simpl; [done|].
  destruct (Mongo.matches q d); simpl; [done|].
  destruct (Mongo.update_one q upd r); simpl in *. by f_equal.
Qed.

Lemma update_one_lookup q upd coll i d :
  coll !! i = Some d →
  ∃ d', (Mongo.update_one q upd coll).1 !! i = Some d' ∧
        (d' = d ∨ d' = Mongo.apply_set upd d ∧ Mongo.matches q d = true).
Proof.
  revert i. induction coll as [|e r IH]; intros i Hi; [done|]. simpl.
  destruct (Mongo.matches q e) eqn:Hm; simpl.
  - destruct i as [|i]; simpl in *.
    + injection Hi as ->. eauto.
    + eauto.
  - destruct (Mongo.update_one q upd r) as [r' n] eqn:Hr; simpl in *.
    destruct i as [|i]; simpl in *; [eauto|].
    apply IH in Hi. done.
Qed.

Lemma update_one_lookup_inv q upd coll i d' :
  (Mongo.update_one q upd coll).1 !! i = Some d' →
  ∃ d, coll !! i = Some d ∧
       (d' = d ∨ d' = Mongo.apply_set upd d ∧ Mongo.matches q d = true).
Proof.
  intros Hi.
  assert (is_Some (coll !! i)) as [d Hd].
  { apply lookup_lt_is_Some. rewrite <- (update_one_length q upd).
    apply lookup_lt_is_Some. eauto. }
  destruct (update_one_lookup q upd coll i d Hd) as (d2 & H2 & Hc).
  rewrite Hi in H2. injection H2 as <-. eauto.
Qed.

Lemma update_one_find_one q upd coll d :
  Mongo.find_one q coll = Some d →
  Mongo.matches q (Mongo.apply_set upd d) = true →
  Mongo.find_one q (Mongo.update_one q upd coll).1
    = Some (Mongo.apply_set upd d).
Proof.
  unfold Mongo.find_one, Mongo.find.
  induction coll as [|e r IH]; simpl; [done|].
  destruct (Mongo.matches q e) eqn:Hm; simpl.
  - intros [= ->] Hq. by rewrite Hq.
  - intros Hd Hq. destruct (Mongo.update_one q upd r) as [r' n] eqn:Hr.
    simpl in *. rewrite Hm. by apply IH.
Qed.

Lemma find_one_matches q coll d :
  Mongo.find_one q coll = Some d → Mongo.matches q d = true ∧ d ∈ coll.
Proof.
  unfold Mongo.find_one, Mongo.find. intros Hh.
  apply head_Some_elem_of in Hh. apply list_elem_of_In in Hh.
  apply filter_In in Hh as [Hin Hm]. split; [done|]. by apply list_elem_of_In.
Qed.

Lemma insert_one_inv fresh d coll coll' :
  Mongo.insert_one fresh d coll = Some coll' →
  ∃ d', coll' = coll ++ [d'] ∧ is_Some (d' !! "_id") ∧
        (d' = d ∨ d !! "_id" = None ∧ d' = <["_id" := VOid fresh]> d).
Proof.
  unfold Mongo.insert_one. destruct (d !! "_id") as [i|] eqn:Hi.
  - rewrite Hi. case_bool_decide; [done|]. intros [= <-]. eauto 6.
  - rewrite lookup_insert_eq. case_bool_decide; [done|]. intros [= <-].
    eexists; split_and!; [done|by rewrite lookup_insert_eq|by right].
Qed.

Lemma insert_one_lookup fresh d coll coll' :
  Mongo.insert_one fresh d coll = Some coll' →
  ∃ d', coll' = coll ++ [d'] ∧ is_Some (d' !! "_id") ∧
        ∀ k, k ≠ "_id" → d' !! k = d !! k.
Proof.
  intros (d' & -> & Hid & [->|[_ ->]])%insert_one_inv; eauto.
  eexists; split_and!; [done..|]. intros k Hk. by rewrite lookup_insert_ne.
Qed.
End MongoFacts.

Lemma with_session_id w : with_session (session w) w = w.
Proof. by destruct w. Qed.

Section Keeps.
Context {X : Type} (f : world → X).

Lemma keeps_ret {A} (a : A) : keeps f (mret a).
Proof. done. Qed.

Lemma keeps_raise {A} e : keeps f (@raise A e).
Proof. done. Qed.

Lemma keeps_gets {A} (g : world → A) : keeps f (gets g).
Proof. done. Qed.

Lemma keeps_bind {A B} (m : M A) (k : A → M B) :
  keeps f m → (∀ a, keeps f (k a)) → keeps f (m ≫= k).
Proof.
  intros Hm Hk w. unfold mbind, M_bind. specialize (Hm w).
  destruct (m w) as [[a|e] w']; simpl in *; [|done].
  by rewrite Hk.
Qed.

Lemma keeps_fmap {A B} (g : A → B) (m : M A) : keeps f m → keeps f (g <$> m).
Proof.
  intros Hm w. unfold fmap, M_fmap. specialize (Hm w).
  by destruct (m w) as [[a|e] w'].
Qed.

Lemma keeps_try {A} (m : M A) (h : exn → M A) :
  keeps f m → (∀ e, keeps f (h e)) → keeps f (try_except m h).
Proof.
  intros Hm Hh w. unfold try_except. specialize (Hm w).
  destruct (m w) as [[a|e] w']; simpl in *; [done|].
  by rewrite Hh.
Qed.

Lemma keeps_modify g : (∀ w, f (g w) = f w) → keeps f (modify g).
Proof. intros Hg w. apply Hg. Qed.

Lemma keeps_getitem {V} (d : gmap string V) k : keeps f (getitem d k).
Proof. unfold getitem. by destruct (d !! k). Qed.

Lemma keeps_index1 {V} (l : list V) : keeps f (index1 l).
Proof. unfold index1. by destruct (l !! 1%nat). Qed.
End Keeps.

Ltac keeps_step :=
  lazymatch goal with
  | |- keeps _ (mbind _ _) => apply keeps_bind; [|intros ?]
  | |- keeps _ (fmap _ _) => apply keeps_fmap
  | |- keeps _ (mret _) => apply keeps_ret
  | |- keeps _ (raise _) => apply keeps_raise
  | |- keeps _ (gets _) => apply keeps_gets
  | |- keeps _ (getitem _ _) => apply keeps_getitem
  | |- keeps _ (index1 _) => apply keeps_index1
  | |- keeps _ (try_except _ _) => apply keeps_try; [|intros ?]
  | |- keeps _ (flash _ _) => apply keeps_modify; intros []; reflexivity
  | |- keeps _ (set_session _) => apply keeps_modify; intros []; reflexivity
  | |- keeps _ session_clear => apply keeps_modify; intros []; reflexivity
  | |- keeps _ (set_users _) => apply keeps_modify; intros []; reflexivity
  | |- keeps _ (set_products _) => apply keeps_modify; intros []; reflexivity
  | |- keeps _ (set_fs _) => apply keeps_modify; intros []; reflexivity
  | |- keeps _ (match ?x with _ => _ end) => destruct x
  | |- keeps _ (let _ := _ in _) => cbv zeta
  end.

Ltac keeps_tac := repeat keeps_step.

Lemma keeps_validate {X} (f : world → X) :
  (∀ s w, f (with_session s w) = f w) → keeps f validate_user_session.
Proof.
  intros Hf w. destruct (validate_user_session_spec w) as (o & s & -> & _).
  apply Hf.
Qed.

Section Frames.
Context `{W : Werkzeug} `{B : Builtins}.
Variables (cfg : config) (ev : env) (rq : request).

Lemma keeps_makedirs {X} (f : world → X) p :
  (∀ s w, f (with_fs s w) = f w) → keeps f (Os.makedirs p).
Proof. intros Hf w. apply Hf. Qed.

Lemma keeps_save {X} (f : world → X) u d n :
  (∀ s w, f (with_fs s w) = f w) → keeps f (Os.save u d n).
Proof.
  intros Hf. unfold Os.save. keeps_tac. apply keeps_modify. intros w. apply Hf.
Qed.

Lemma keeps_chmod {X} (f : world → X) p m :
  (∀ s w, f (with_fs s w) = f w) → keeps f (Os.chmod p m).
Proof.
  intros Hf. unfold Os.chmod. keeps_tac. apply keeps_modify. intros w. apply Hf.
Qed.

Lemma index_keeps_world w : (index w).2 = w.
Proof. done. Qed.

Lemma login_keeps_users : keeps users (login rq).
Proof. unfold login. keeps_tac. Qed.

Lemma logout_keeps_users : keeps users logout.
Proof. unfold logout. keeps_tac. Qed.

Lemma dashboard_keeps_users : keeps users dashboard.
Proof. unfold dashboard. keeps_tac. by apply keeps_validate. Qed.

Lemma product_list_keeps_world w : (product_list rq w).2 = w.
Proof. done. Qed.

Lemma product_detail_keeps_users i : keeps users (product_detail i).
Proof. unfold product_detail. keeps_tac. Qed.

Lemma add_product_keeps_users : keeps users (add_product cfg ev rq).
Proof.
  unfold add_product. keeps_tac;
    first [ by apply keeps_validate | by apply keeps_save | by apply keeps_chmod ].
Qed.

Lemma resolve_image_keeps {X} (f : world → X) u :
  keeps f (resolve_image cfg u).
Proof. unfold resolve_image, default_image. keeps_tac. Qed.

Lemma profile_keeps_users : keeps users (profile cfg).
Proof.
  unfold profile. keeps_tac;
    first [ by apply keeps_validate | apply resolve_image_keeps ].
Qed.
End Frames.

(** Runs [validate_user_session] at the head of a handler and splits on
    whether it found a user. *)
Ltac use_validate w :=
  let o := fresh "o" in let s := fresh "s" in
  let Hv := fresh "Hv" in let Ho := fresh "Ho" in
  destruct (validate_user_session_spec w) as (o & s & Hv & Ho);
  run; rewrite Hv; cbn beta iota;
  destruct o as [?uid|]; cbn beta iota;
  [ destruct Ho as (-> & ?v & ?Hsess & ?Hparse); rewrite with_session_id
  | clear Ho ].

Ltac lk H :=
  repeat first
    [ rewrite lookup_union in H
    | rewrite lookup_insert_eq in H
    | rewrite lookup_insert_ne in H by done
    | rewrite lookup_singleton_eq in H
    | rewrite lookup_singleton_ne in H by done
    | rewrite lookup_empty in H ];
  simpl in H.

Ltac split_key k s := destruct (decide (k = s)) as [->|?].

Lemma update_profile_data_lookup rq s k v :
  (filter (λ kv : string * value, kv.2 ≠ VNone) (update_profile_data rq s)) !! k
    = Some v →
  k = "location" ∨
  (k ∈ general_keys ∧ ∃ t, form rq !! k = Some t ∧ v = VStr t).
Proof.
  intros H. apply map_lookup_filter_Some in H as [H Hne]. simpl in Hne.
  unfold update_profile_data in H.
  assert (∀ o, Some (of_get o) = Some v → ∃ t, o = Some t ∧ v = VStr t) as Hget.
  { intros [t|] [= <-]; [eauto|done]. }
  unfold general_keys.
  split_key k "location"; [by left|right].
  split_key k "name"; [|split_key k "email"; [|split_key k "phone";
    [|split_key k "description"; [|split_key k "farm_name"]]]];
    destruct (eq_str _ _); lk H; try done;
    (split; [set_solver | by apply Hget]).
Qed.

Lemma update_profile_users rq w :
  users (update_profile rq w).2 = users w ∨
  ∃ uid, users (update_profile rq w).2 =
    (Mongo.update_one {[ "_id" := VOid uid ]}
       (filter (λ kv : string * value, kv.2 ≠ VNone)
          (update_profile_data rq (session w))) (users w)).1.
Proof.
  unfold update_profile. use_validate w; [|by left].
  right. by exists uid.
Qed.

Lemma update_social_links_users rq w :
  users (update_social_links rq w).2 = users w ∨
  ∃ uid, users (update_social_links rq w).2 =
    (Mongo.update_one {[ "_id" := VOid uid ]}
       {[ "social_links" := VDoc (social_links_data rq) ]} (users w)).1.
Proof.
  unfold update_social_links. use_validate w; [|by left].
  right. by exists uid.
Qed.

Lemma apply_set_lookup (upd d : doc) k :
  Mongo.apply_set upd d !! k =
    match upd !! k with Some v => Some v | None => d !! k end.
Proof.
  unfold Mongo.apply_set. rewrite lookup_union.
  destruct (upd !! k), (d !! k); done.
Qed.




(** Claim C3.  A submitted file whose name has no dot, or whose text after
    the last dot, lowered, is outside png, jpg, jpeg, gif, is rejected by
    each of the three upload handlers: the answer is a redirect, one
    message is flashed, and users, products, orders and the filesystem are
    as before. *)
Theorem C3_disallowed_upload_rejected `{W : Werkzeug} `{B : Builtins}
    (cfg : config) (ev : env) (rq : request) (w : world) (f : upload) :
  disallowed (filename f) →
  (method rq = "POST" → rfiles rq !! "profile_picture" = Some f →
   rejected w (register cfg ev rq w)) ∧
  (rfiles rq !! "profile_picture" = Some f →
   rejected w (update_profile_picture cfg ev rq w)) ∧
  (method rq = "POST" → rfiles rq !! "image" = Some f →
   rejected w (add_product cfg ev rq w)).
Proof.
  intros Hbad%allowed_file_false_iff. split_and!.
  - by apply register_rejects.
  - by apply update_profile_picture_rejects.
  - by apply add_product_rejects.
Qed.

Lemma C3_disallowed_upload_rejected_witness :
  let f := {| filename := "notes.PNG.txt"; content := "x" |} in
  let rq := Sample.post Sample.alice_form {[ "profile_picture" := f ]} in
  disallowed (filename f) ∧
  rejected Sample.bob_world
    (@register Sample.werkzeug Sample.cfg Sample.ev rq Sample.bob_world).
Proof.
  intros f rq.
  assert (disallowed (filename f)) as Hbad.
  { right. exists "notes.PNG", "txt". split; [reflexivity|].
    split; [reflexivity|]. compute_done. }
  split; [exact Hbad|].
  destruct (@C3_disallowed_upload_rejected Sample.werkzeug Sample.builtins
              Sample.cfg Sample.ev rq Sample.bob_world f Hbad) as (Hreg & _ & _).
  apply Hreg; compute_done.
Defined.





Lemma find_singleton k v coll :
  Mongo.find {[ k := v ]} coll =
    List.filter (λ d : doc, bool_decide (d !! k = Some v)) coll.
Proof.
  unfold Mongo.find. induction coll as [|d r IH]; simpl; [done|].
  by rewrite matches_singleton, IH.
Qed.

(** Claim C10.  A [category] parameter that is present but empty gives the
    same answer as no parameter at all, namely every product; the filter
    narrows the listing exactly when the parameter is a non-empty string. *)
Theorem C10_empty_category (rq rq' : request) (w : world) :
  args rq !! "category" = Some "" →
  args rq' !! "category" = None →
  product_list rq w = product_list rq' w ∧
  product_list rq w =
    (Ok (Render "products/list.html" [("products", CDocs (products w))]), w) ∧
  (∀ rq'' c, args rq'' !! "category" = Some c → c ≠ "" →
     product_list rq'' w =
       (Ok (Render "products/list.html"
              [("products",
                CDocs (List.filter
                         (λ d : doc, bool_decide (d !! "category" = Some (VStr c)))
                         (products w)))]), w)).
Proof.
  intros He Hn. unfold product_list, product_list_query. run.
  rewrite He, Hn. simpl. rewrite find_empty. split_and!; [done..|].
  intros rq'' c -> Hc. simpl. destruct c; [done|]. simpl.
  by rewrite find_singleton.
Qed.

Lemma C10_empty_category_witness :
  let rq := {| method := "GET"; form := ∅; args := {[ "category" := "" ]};
               rfiles := ∅ |} in
  let rq' := {| method := "GET"; form := ∅; args := ∅; rfiles := ∅ |} in
  args rq !! "category" = Some "" ∧ args rq' !! "category" = None ∧
  product_list rq Sample.bob_world = product_list rq' Sample.bob_world.
Proof.
  intros rq rq'.
  assert (args rq !! "category" = Some "") as He by compute_done.
  assert (args rq' !! "category" = None) as Hn by compute_done.
  split; [exact He|]. split; [exact Hn|].
  destruct (C10_empty_category rq rq' Sample.bob_world He Hn) as [Heq _].
  exact Heq.
Defined.

Lemma validate_logged_in w v uid :
  session w !! "user_id" = Some v → Bson.parse v = inl uid →
  validate_user_session w = (Ok (Some uid), w).
Proof.
  intros Hs Hp. unfold validate_user_session. run. cbn beta iota.
  by rewrite Hs, Hp.
Qed.

Section LoginFacts.
Context `{W : Werkzeug} `{B : Builtins}.
Variables (rq : request) (w : world).

Lemma login_failure em pw :
  method rq = "POST" →
  form rq !! "email" = Some em → form rq !! "password" = Some pw →
  em ≠ "" → pw ≠ "" →
  (Mongo.find_one {[ "email" := VStr em ]} (users w) = None ∨
   ∃ u h, Mongo.find_one {[ "email" := VStr em ]} (users w) = Some u ∧
          u !! "password" = Some (VStr h) ∧ check_password_hash h pw = false) →
  login rq w =
    (Ok (Render "auth/login.html" []),
     with_flashed (flashed w ++ [("Invalid email or password", "error")]) w).
Proof.
  intros Hm He Hp Hem Hpw Hcase. unfold login. rewrite Hm, He, Hp. simpl.
  destruct em; [done|]. destruct pw; [done|]. simpl.
  run. cbn beta iota.
  destruct Hcase as [->|(u & h & -> & Hh & Hc)]; [done|].
  rewrite Hh. cbn beta iota. by rewrite Hc.
Qed.
End LoginFacts.

(** Claim C7, as amended.  A login POST with a non-empty email and a
    non-empty password, where no user has that email or the matched user's
    stored hash rejects the password, flashes "Invalid email or password" in
    both cases, renders the login page and leaves the session as it was, so
    a session without [user_id] stays without one. *)
Theorem C7_login_failure `{W : Werkzeug} `{B : Builtins}
    (rq : request) (w : world) (em pw : string) :
  method rq = "POST" →
  form rq !! "email" = Some em → form rq !! "password" = Some pw →
  em ≠ "" → pw ≠ "" →
  (Mongo.find_one {[ "email" := VStr em ]} (users w) = None ∨
   ∃ u h, Mongo.find_one {[ "email" := VStr em ]} (users w) = Some u ∧
          u !! "password" = Some (VStr h) ∧ check_password_hash h pw = false) →
  login rq w =
    (Ok (Render "auth/login.html" []),
     with_flashed (flashed w ++ [("Invalid email or password", "error")]) w) ∧
  session (login rq w).2 = session w ∧
  (session w !! "user_id" = None → session (login rq w).2 !! "user_id" = None).
Proof.
  intros Hm He Hp Hem Hpw Hcase.
  rewrite (login_failure rq w em pw Hm He Hp Hem Hpw Hcase).
  split_and!; done.
Qed.

Lemma C7_login_failure_witness :
  let rq := Sample.post {[ "email" := "bob@x.com"; "password" := "wrong" ]} ∅ in
  let w := with_session ∅ Sample.bob_world in
  (Mongo.find_one {[ "email" := VStr "bob@x.com" ]} (users w) = Some Sample.bob ∧
   Sample.bob !! "password" = Some (VStr (Sample.hash "NaCl" "hunter2")) ∧
   Sample.check (Sample.hash "NaCl" "hunter2") "wrong" = false) ∧
  session (@login Sample.werkzeug Sample.builtins rq w).2 !! "user_id" = None.
Proof.
  intros rq w.
  assert (Mongo.find_one {[ "email" := VStr "bob@x.com" ]} (users w)
            = Some Sample.bob ∧
          Sample.bob !! "password" = Some (VStr (Sample.hash "NaCl" "hunter2")) ∧
          Sample.check (Sample.hash "NaCl" "hunter2") "wrong" = false)
    as Hcase by compute_done.
  split; [exact Hcase|].
  destruct (@C7_login_failure Sample.werkzeug Sample.builtins rq w
              "bob@x.com" "wrong") as (_ & _ & Hsess);
    [ reflexivity | compute_done | compute_done | discriminate | discriminate
    | right; exists Sample.bob, (Sample.hash "NaCl" "hunter2"); exact Hcase
    | apply Hsess; compute_done ].
Defined.

Lemma C7_counterexample :
  let rq := Sample.post {[ "email" := ""; "password" := "hunter2" ]} ∅ in
  let w := with_session ∅ Sample.bob_world in
  method rq = "POST" ∧
  Mongo.find_one {[ "email" := VStr "" ]} (users w) = None ∧
  flashed (@login Sample.werkzeug Sample.builtins rq w).2
    = [("Please enter both email and password", "error")].
Proof. cbv zeta. compute_done. Qed.

Section ChangePassword.
Context `{W : Werkzeug}.
Variables (ev : env) (rq : request) (w : world).

Lemma change_password_mismatch v uid cur new conf :
  session w !! "user_id" = Some v → Bson.parse v = inl uid →
  form rq !! "current_password" = Some cur →
  form rq !! "new_password" = Some new →
  form rq !! "confirm_password" = Some conf →
  new ≠ conf →
  change_password ev rq w =
    (Ok (Redirect "profile"),
     with_flashed (flashed w ++ [("New passwords do not match", "error")]) w).
Proof.
  intros Hs Hp Hc Hn Hf Hne. unfold change_password. run.
  rewrite (validate_logged_in _ _ _ Hs Hp). cbn beta iota.
  rewrite Hc, Hn, Hf. cbn beta iota.
  apply String.eqb_neq in Hne. by rewrite Hne.
Qed.

Lemma change_password_incorrect v uid cur new :
  session w !! "user_id" = Some v → Bson.parse v = inl uid →
  form rq !! "current_password" = Some cur →
  form rq !! "new_password" = Some new →
  form rq !! "confirm_password" = Some new →
  (Mongo.find_one {[ "_id" := VOid uid ]} (users w) = None ∨
   ∃ u h, Mongo.find_one {[ "_id" := VOid uid ]} (users w) = Some u ∧
          u !! "password" = Some (VStr h) ∧
          check_password_hash h cur = false) →
  change_password ev rq w =
    (Ok (Redirect "profile"),
     with_flashed (flashed w ++ [("Current password is incorrect", "error")]) w).
Proof.
  intros Hs Hp Hc Hn Hf Hcase. unfold change_password. run.
  rewrite (validate_logged_in _ _ _ Hs Hp). cbn beta iota.
  rewrite Hc, Hn, Hf. cbn beta iota. rewrite String.eqb_refl. simpl.
  destruct Hcase as [->|(u & h & -> & Hh & Hk)]; [done|].
  rewrite Hh. cbn beta iota. by rewrite Hk.
Qed.

Lemma change_password_success v uid cur new u h :
  session w !! "user_id" = Some v → Bson.parse v = inl uid →
  form rq !! "current_password" = Some cur →
  form rq !! "new_password" = Some new →
  form rq !! "confirm_password" = Some new →
  Mongo.find_one {[ "_id" := VOid uid ]} (users w) = Some u →
  u !! "password" = Some (VStr h) →
  check_password_hash h cur = true →
  change_password ev rq w =
    (Ok (Redirect "profile"),
     with_flashed (flashed w ++ [("Password updated successfully!", "success")])
       (with_users (password_set ev w uid new) w)).
Proof.
  intros Hs Hp Hc Hn Hf Hu Hh Hk. unfold change_password. run.
  rewrite (validate_logged_in _ _ _ Hs Hp). cbn beta iota.
  rewrite Hc, Hn, Hf. cbn beta iota. rewrite String.eqb_refl. simpl.
  rewrite Hu, Hh. cbn beta iota. by rewrite Hk.
Qed.

(** The stored users change only along the successful path. *)
Lemma change_password_users :
  users (change_password ev rq w).2 = users w ∨
  ∃ v uid cur new u h,
    session w !! "user_id" = Some v ∧ Bson.parse v = inl uid ∧
    form rq !! "current_password" = Some cur ∧
    form rq !! "new_password" = Some new ∧
    form rq !! "confirm_password" = Some new ∧
    Mongo.find_one {[ "_id" := VOid uid ]} (users w) = Some u ∧
    u !! "password" = Some (VStr h) ∧
    check_password_hash h cur = true ∧
    users (change_password ev rq w).2 = password_set ev w uid new.
Proof.
  destruct (session w !! "user_id") as [v|] eqn:Hs; cycle 1.
  { left. unfold change_password, validate_user_session. run.
    cbn beta iota. by rewrite Hs. }
  destruct (Bson.parse v) as [uid|e] eqn:Hp; cycle 1.
  { left. unfold change_password, validate_user_session. run.
    cbn beta iota. by rewrite Hs, Hp. }
  destruct (form rq !! "current_password") as [cur|] eqn:Hc; cycle 1.
  { left. unfold change_password. run.
    rewrite (validate_logged_in _ _ _ Hs Hp). cbn beta iota. by rewrite Hc. }
  destruct (form rq !! "new_password") as [new|] eqn:Hn; cycle 1.
  { left. unfold change_password. run.
    rewrite (validate_logged_in _ _ _ Hs Hp). cbn beta iota.
    by rewrite Hc, Hn. }
  destruct (form rq !! "confirm_password") as [conf|] eqn:Hf; cycle 1.
  { left. unfold change_password. run.
    rewrite (validate_logged_in _ _ _ Hs Hp). cbn beta iota.
    by rewrite Hc, Hn, Hf. }
  destruct (decide (new = conf)) as [<-|Hne]; cycle 1.
  { left. by rewrite (change_password_mismatch v uid cur new conf). }
  destruct (Mongo.find_one {[ "_id" := VOid uid ]} (users w)) as [u|] eqn:Hu;
    cycle 1.
  { left. rewrite (change_password_incorrect v uid cur new); auto. }
  destruct (u !! "password") as [pv|] eqn:Hh; cycle 1.
  { left. unfold change_password. run.
    rewrite (validate_logged_in _ _ _ Hs Hp). cbn beta iota.
    rewrite Hc, Hn, Hf. cbn beta iota. rewrite String.eqb_refl. simpl.
    by rewrite Hu, Hh. }
  assert ((∃ h, pv = VStr h) ∨ ∀ h, pv ≠ VStr h) as [[h ->]|Hnot]
    by (destruct pv; eauto); cycle 1.
  { left. unfold change_password. run.
    rewrite (validate_logged_in _ _ _ Hs Hp). cbn beta iota.
    rewrite Hc, Hn, Hf. cbn beta iota. rewrite String.eqb_refl. simpl.
    rewrite Hu, Hh. cbn beta iota.
    destruct pv; try done. by destruct (Hnot s). }
  destruct (check_password_hash h cur) eqn:Hk; cycle 1.
  { left. rewrite (change_password_incorrect v uid cur new); eauto 10. }
  right. exists v, uid, cur, new, u, h. split_and!; try done.
  by rewrite (change_password_success v uid cur new u h).
Qed.
End ChangePassword.

(** Claim C6, as amended.  For a logged-in user, [change_password] changes
    the users collection only if the form carries the three fields, the two
    new passwords are equal and the current password verifies against the
    stored hash.  When the form carries the three fields and the new
    passwords differ it flashes "New passwords do not match" and changes
    nothing else; when they agree and verification fails it flashes "Current
    password is incorrect" and changes nothing else. *)
Theorem C6_change_password `{W : Werkzeug} (ev : env) (rq : request) (w : world)
    (v : value) (uid : ObjectId) :
  session w !! "user_id" = Some v → Bson.parse v = inl uid →
  (users (change_password ev rq w).2 ≠ users w →
   ∃ cur new u h,
     form rq !! "current_password" = Some cur ∧
     form rq !! "new_password" = Some new ∧
     form rq !! "confirm_password" = Some new ∧
     Mongo.find_one {[ "_id" := VOid uid ]} (users w) = Some u ∧
     u !! "password" = Some (VStr h) ∧ check_password_hash h cur = true) ∧
  (∀ cur new conf,
     form rq !! "current_password" = Some cur →
     form rq !! "new_password" = Some new →
     form rq !! "confirm_password" = Some conf →
     new ≠ conf →
     change_password ev rq w =
       (Ok (Redirect "profile"),
        with_flashed (flashed w ++ [("New passwords do not match", "error")]) w)) ∧
  (∀ cur new,
     form rq !! "current_password" = Some cur →
     form rq !! "new_password" = Some new →
     form rq !! "confirm_password" = Some new →
     (Mongo.find_one {[ "_id" := VOid uid ]} (users w) = None ∨
      ∃ u h, Mongo.find_one {[ "_id" := VOid uid ]} (users w) = Some u ∧
             u !! "password" = Some (VStr h) ∧
             check_password_hash h cur = false) →
     change_password ev rq w =
       (Ok (Redirect "profile"),
        with_flashed (flashed w ++ [("Current password is incorrect", "error")])
          w)).
Proof.
  intros Hs Hp. split_and!.
  - intros Hne.
    destruct (change_password_users ev rq w)
      as [Heq|(v' & uid' & cur & new & u & h & Hs' & Hp' & Hrest)]; [done|].
    rewrite Hs in Hs'. injection Hs' as <-. rewrite Hp in Hp'.
    injection Hp' as <-. exists cur, new, u, h. naive_solver.
  - intros cur new conf. by apply (change_password_mismatch ev rq w v uid).
  - intros cur new. by apply (change_password_incorrect ev rq w v uid).
Qed.

Lemma C6_change_password_witness :
  let rq := Sample.post {[ "current_password" := "hunter2";
                           "new_password" := "tr0ub4dor";
                           "confirm_password" := "tr0ubador" ]} ∅ in
  (session Sample.bob_world !! "user_id" = Some (VStr Sample.bob_id) ∧
   Bson.parse (VStr Sample.bob_id) = inl Sample.bob_id) ∧
  @change_password Sample.werkzeug Sample.ev rq Sample.bob_world =
    (Ok (Redirect "profile"),
     with_flashed [("New passwords do not match", "error")] Sample.bob_world).
Proof.
  intros rq.
  assert (session Sample.bob_world !! "user_id" = Some (VStr Sample.bob_id))
    as Hs by compute_done.
  assert (Bson.parse (VStr Sample.bob_id) = inl Sample.bob_id)
    as Hp by reflexivity.
  split; [by split|].
  destruct (@C6_change_password Sample.werkzeug Sample.ev rq Sample.bob_world
              _ _ Hs Hp) as (_ & Hmis & _).
  apply (Hmis "hunter2" "tr0ub4dor" "tr0ubador");
    [compute_done | compute_done | compute_done | discriminate].
Defined.

Lemma C6_counterexample :
  let rq := Sample.post {[ "new_password" := "tr0ub4dor";
                           "confirm_password" := "tr0ubador" ]} ∅ in
  session Sample.bob_world !! "user_id" = Some (VStr Sample.bob_id) ∧
  Bson.is_valid Sample.bob_id = true ∧
  form rq !! "new_password" ≠ form rq !! "confirm_password" ∧
  flashed (@change_password Sample.werkzeug Sample.ev rq Sample.bob_world).2
    = [("Failed to change password", "error")].
Proof. cbv zeta. compute_done. Qed.

Section RegisterFacts.
Context `{W : Werkzeug}.
Variables (cfg : config) (ev : env) (rq : request) (w : world).

Lemma register_cases :
  (users (register cfg ev rq w).2 = users w ∧
   (register cfg ev rq w).1 ≠ Ok (Redirect "login")) ∨
  ∃ f e p ut us,
    method rq = "POST" ∧
    rfiles rq !! "profile_picture" = Some f ∧
    allowed_file (filename f) = true ∧
    PyStr.rsplit1 "." (secure_filename (filename f)) !! 1%nat = Some e ∧
    form rq !! "password" = Some p ∧
    form rq !! "user_type" = Some ut ∧
    let fname := "user_" +:+ Strftime.compact (now ev) +:+ "." +:+ PyStr.lower e in
    let path := os_path_join (UPLOAD_FOLDER cfg) fname in
    Mongo.insert_one (fresh_oid ev) (registered_doc ev rq fname p ut) (users w)
      = Some us ∧
    register cfg ev rq w =
      (Ok (Redirect "login"),
       with_flashed
         (flashed w ++ [("Account created successfully! Please login.", "success")])
         (with_users us
            (with_fs {| dirs := {[ UPLOAD_FOLDER cfg ]} ∪ dirs (fs w);
                        files := <[path := (content f, 420%nat)]>
                                   (<[path := (content f, 420%nat)]>
                                      (files (fs w))) |} w))).
Proof.
  unfold register.
  destruct (String.eqb (method rq) "POST") eqn:Hm; [|by left].
  apply String.eqb_eq in Hm.
  destruct (negb _ || negb _) eqn:Hreq; [by left|].
  apply orb_false_iff in Hreq as [Hreq _].
  apply negb_false_iff in Hreq. simpl in Hreq. unfold has_key in Hreq.
  rewrite !lookup_fmap in Hreq.
  destruct (form rq !! "name"); [|done].
  destruct (form rq !! "email"); [|done].
  destruct (form rq !! "password") as [p|] eqn:Hp; [|done].
  destruct (form rq !! "user_type") as [ut|] eqn:Hut; [|done].
  clear Hreq. unfold Os.makedirs, Os.save, Os.chmod. run.
  destruct (rfiles rq !! "profile_picture") as [f|] eqn:Hf; [|by left].
  simpl.
  destruct (String.eqb (filename f) ""); [by left|].
  destruct (allowed_file (filename f)) eqn:Ha; [|by left].
  simpl.
  destruct (PyStr.rsplit1 "." (secure_filename (filename f)) !! 1%nat)
    as [e|] eqn:He; [|by left].
  simpl. rewrite bool_decide_eq_true_2 by set_solver.
  simpl. rewrite lookup_insert_eq.
  simpl. rewrite Hp. simpl.
  rewrite !lookup_insert_ne by done. rewrite lookup_fmap, Hut. simpl.
  match goal with
  | |- context [Mongo.insert_one ?o ?d ?u] =>
      destruct (Mongo.insert_one o d u) as [us|] eqn:Hins
  end; [|by left].
  right. exists f, e, p, ut, us. split_and!; try done.
Qed.
End RegisterFacts.

Section UploadFacts.
Context `{W : Werkzeug} `{B : Builtins}.
Variables (cfg : config) (ev : env) (rq : request) (w : world).

Lemma update_profile_picture_cases :
  users (update_profile_picture cfg ev rq w).2 = users w ∨
  ∃ uid f e,
    rfiles rq !! "profile_picture" = Some f ∧
    allowed_file (filename f) = true ∧
    PyStr.rsplit1 "." (secure_filename (filename f)) !! 1%nat = Some e ∧
    let fname := "profile_" +:+ uid +:+ "_" +:+ Strftime.compact (now ev)
                   +:+ "." +:+ PyStr.lower e in
    let path := os_path_join (UPLOAD_FOLDER cfg) fname in
    users (update_profile_picture cfg ev rq w).2 =
      (Mongo.update_one {[ "_id" := VOid uid ]}
         {[ "image_url" := VStr ("uploads/" +:+ fname) ]} (users w)).1 ∧
    files (fs (update_profile_picture cfg ev rq w).2) !! path
      = Some (content f, 420%nat).
Proof.
  unfold update_profile_picture, Os.makedirs, Os.save, Os.chmod.
  use_validate w; [|by left].
  destruct (rfiles rq !! "profile_picture") as [f|] eqn:Hf; [|by left].
  destruct (String.eqb (filename f) ""); [by left|].
  destruct (allowed_file (filename f)) eqn:Ha; [|by left].
  simpl.
  destruct (PyStr.rsplit1 "." (secure_filename (filename f)) !! 1%nat)
    as [e|] eqn:He; [|by left].
  simpl. rewrite bool_decide_eq_true_2 by set_solver.
  simpl. rewrite lookup_insert_eq. simpl.
  right. exists uid, f, e. split_and!; try done.
  - by destruct (_ =? 1)%nat.
  - destruct (_ =? 1)%nat; simpl; by rewrite lookup_insert_eq.
Qed.

Lemma add_product_cases :
  products (add_product cfg ev rq w).2 = products w ∨
  ∃ f d ps,
    rfiles rq !! "image" = Some f ∧
    allowed_file (filename f) = true ∧
    let fname := Strftime.underscored (now ev) +:+ "_"
                   +:+ secure_filename (filename f) in
    let path := os_path_join (UPLOAD_FOLDER cfg) fname in
    d !! "image_url" = None ∧
    Mongo.insert_one (fresh_oid ev)
      (<["image_url" := VStr (url_for_static ("uploads/" +:+ fname))]> d)
      (products w) = Some ps ∧
    products (add_product cfg ev rq w).2 = ps ∧
    files (fs (add_product cfg ev rq w).2) !! path = Some (content f, 420%nat).
Proof.
  unfold add_product, Os.save, Os.chmod.
  use_validate w; [|by left].
  destruct (eq_str _ _); wsimpl; [|by left].
  destruct (String.eqb (method rq) "POST"); [|by left].
  destruct (forallb _ _) eqn:Hreq; wsimpl; [|by left].
  unfold add_product_required_fields, has_key in Hreq.
  cbn [forallb] in Hreq.
  destruct (form rq !! "name") as [nm|]; [|by cbn in Hreq].
  destruct (form rq !! "category") as [cat|]; [|by cbn in Hreq].
  destruct (form rq !! "price") as [ps|]; [|by cbn in Hreq].
  destruct (form rq !! "quantity") as [qs|]; [|by cbn in Hreq].
  destruct (form rq !! "description") as [ds|]; [|by cbn in Hreq]. clear Hreq.
  destruct (py_float ps) as [price|]; wsimpl; [|by left].
  destruct (py_int qs) as [qty|]; wsimpl; [|by left].
  destruct (rfiles rq !! "image") as [f|] eqn:Hf; [|by left].
  destruct (String.eqb (filename f) ""); [by left|].
  destruct (PyStr.nonempty (filename f)); [|by left].
  destruct (allowed_file (filename f)) eqn:Ha; [|by left]. wsimpl.
  case_bool_decide; [|by left]. wsimpl.
  rewrite lookup_insert_eq. wsimpl.
  match goal with
  | |- context [Mongo.insert_one ?o (<["image_url" := ?u]> ?d) ?c] =>
      destruct (Mongo.insert_one o (<["image_url" := u]> d) c) as [ps'|] eqn:Hins;
      [right; exists f, d, ps'|by left]
  end.
  wsimpl. split_and!; try done. by rewrite lookup_insert_eq.
Qed.
End UploadFacts.

Lemma endswith_char_app c a d b :
  PyStr.endswith_char c (a +:+ String d b) = PyStr.endswith_char c (String d b).
Proof.
  induction a as [|x a IH]; [done|].
  change (String x a +:+ String d b) with (String x (a +:+ String d b)).
  cbn [PyStr.endswith_char]. rewrite IH.
  destruct a; done.
Qed.

Lemma string_app_assoc (a b c : string) : (a +:+ b) +:+ c = a +:+ (b +:+ c).
Proof.
  induction a as [|x a IH]; [done|].
  change (String x ((a +:+ b) +:+ c) = String x (a +:+ (b +:+ c))).
  by rewrite IH.
Qed.

Lemma nonempty_app_r a d b : PyStr.nonempty (a +:+ String d b) = true.
Proof. by destruct a. Qed.

(** A name stored as [uploads/<name>] resolves, against any static root,
    to the place in the upload folder where the file was saved. *)
Lemma join_uploads root name :
  PyStr.startswith "/" name = false →
  os_path_join root ("uploads/" +:+ name)
    = os_path_join (os_path_join root "uploads") name.
Proof.
  intros Hn. unfold os_path_join at 1 3. simpl PyStr.startswith.
  cbn beta iota.
  destruct (negb (PyStr.nonempty root) || PyStr.endswith_char "/" root);
    unfold os_path_join; rewrite Hn.
  - change "uploads" with (String "u" "ploads").
    rewrite nonempty_app_r, endswith_char_app. simpl.
    by rewrite !string_app_assoc.
  - change (root +:+ "/" +:+ "uploads") with (root +:+ String "/" "uploads").
    rewrite nonempty_app_r, endswith_char_app. simpl.
    by rewrite !string_app_assoc.
Qed.

Section RegisteredDoc.
Context `{W : Werkzeug}.
Variables (ev : env) (rq : request) (fname p ut : string).

Ltac open_doc :=
  unfold registered_doc; destruct (String.eqb ut "farmer") eqn:?.

Lemma registered_doc_password :
  registered_doc ev rq fname p ut !! "password"
    = Some (VStr (generate_password_hash (salt ev) p)).
Proof.
  open_doc; rewrite ?lookup_insert_ne by done; by rewrite lookup_insert_eq.
Qed.

Lemma registered_doc_image_url :
  registered_doc ev rq fname p ut !! "image_url"
    = Some (VStr ("uploads/" +:+ fname)).
Proof.
  open_doc; rewrite ?lookup_insert_ne by done; by rewrite lookup_insert_eq.
Qed.

Lemma registered_doc_created_at :
  registered_doc ev rq fname p ut !! "created_at" = Some (VDate (utcnow ev)).
Proof.
  open_doc; rewrite ?lookup_insert_ne by done; by rewrite lookup_insert_eq.
Qed.

Lemma registered_doc_form k s :
  form rq !! k = Some s → k ∉ register_overwrites →
  registered_doc ev rq fname p ut !! k = Some (VStr s).
Proof.
  intros Hk Hn. unfold register_overwrites in Hn.
  apply not_elem_of_cons in Hn as [? Hn].
  apply not_elem_of_cons in Hn as [? Hn].
  apply not_elem_of_cons in Hn as [? Hn].
  apply not_elem_of_cons in Hn as [? _].
  open_doc; rewrite ?(lookup_insert_ne _ "location") by done.
  - destruct (decide (k = "farm_name")) as [->|?].
    + rewrite lookup_insert_eq. by rewrite Hk.
    + rewrite !lookup_insert_ne by done. by rewrite lookup_fmap, Hk.
  - rewrite !lookup_insert_ne by done. by rewrite lookup_fmap, Hk.
Qed.

Lemma registered_doc_dom :
  dom (registered_doc ev rq fname p ut)
    = dom (form rq) ∪ {[ "password"; "image_url"; "created_at" ]}
        ∪ farmer_keys ut.
Proof.
  unfold farmer_keys. open_doc; rewrite !dom_insert_L, dom_fmap_L; set_solver.
Qed.

Lemma registered_doc_farmer :
  ut = "farmer" →
  registered_doc ev rq fname p ut !! "farm_name"
    = Some (VStr (default "" (form rq !! "farm_name"))) ∧
  registered_doc ev rq fname p ut !! "location"
    = Some (VDoc {[ "address" := Some (default "" (form rq !! "address"));
                    "city" := Some (default "" (form rq !! "city"));
                    "state" := Some (default "" (form rq !! "state"));
                    "zipcode" := Some (default "" (form rq !! "zipcode")) ]}).
Proof.
  intros ->. unfold registered_doc. simpl. split.
  - rewrite lookup_insert_ne by done. by rewrite lookup_insert_eq.
  - by rewrite lookup_insert_eq.
Qed.
End RegisteredDoc.

(** Claim C4, as amended.  The record a registration inserts carries the
    submitted [user_type] as it was submitted (it is not validated), the hash
    of the submitted password, the stored image path, the creation time and
    an [_id]; every other submitted field is stored as submitted; for
    [user_type] "farmer" it also carries [farm_name] and a [location] with the
    four address keys, absent ones defaulting to the empty string.  Its keys
    are the submitted keys together with [_id], [image_url], [created_at]
    and, for a farmer, [farm_name] and [location]. *)
Theorem C4_inserted_record `{W : Werkzeug} (cfg : config) (ev : env)
    (rq : request) (w : world) :
  users (register cfg ev rq w).2 ≠ users w →
  ∃ d' ut p fname,
    users (register cfg ev rq w).2 = users w ++ [d'] ∧
    form rq !! "user_type" = Some ut ∧
    form rq !! "password" = Some p ∧
    d' !! "user_type" = Some (VStr ut) ∧
    d' !! "password" = Some (VStr (generate_password_hash (salt ev) p)) ∧
    d' !! "image_url" = Some (VStr ("uploads/" +:+ fname)) ∧
    d' !! "created_at" = Some (VDate (utcnow ev)) ∧
    is_Some (d' !! "_id") ∧
    (∀ k s, form rq !! k = Some s → k ∉ register_overwrites →
            d' !! k = Some (VStr s)) ∧
    dom d' = dom (form rq) ∪ {[ "_id"; "image_url"; "created_at" ]}
               ∪ farmer_keys ut ∧
    (ut = "farmer" →
     d' !! "farm_name" = Some (VStr (default "" (form rq !! "farm_name"))) ∧
     d' !! "location"
       = Some (VDoc {[ "address" := Some (default "" (form rq !! "address"));
                       "city" := Some (default "" (form rq !! "city"));
                       "state" := Some (default "" (form rq !! "state"));
                       "zipcode" := Some (default "" (form rq !! "zipcode")) ]})).
Proof.
  intros Hne.
  destruct (register_cases cfg ev rq w)
    as [[Heq _]|(f & e & p & ut & us & Hm & Hf & Ha & He & Hp & Hut & Hins & Hrun)];
    [done|].
  cbv zeta in Hins, Hrun. rewrite Hrun. simpl.
  set (fname := "user_" +:+ Strftime.compact (now ev) +:+ "." +:+ PyStr.lower e)
    in *.
  destruct (insert_one_inv _ _ _ _ Hins) as (d' & -> & Hid & Hd').
  assert (∀ k, is_Some (registered_doc ev rq fname p ut !! k) →
               d' !! k = registered_doc ev rq fname p ut !! k) as Hsame.
  { intros k Hk. destruct Hd' as [->|[Hnone ->]]; [done|].
    rewrite lookup_insert_ne; [done|]. intros <-. rewrite Hnone in Hk.
    by destruct Hk. }
  assert (dom d' = {[ "_id" ]} ∪ dom (registered_doc ev rq fname p ut)) as Hdom.
  { destruct Hd' as [->|[Hnone ->]].
    - apply elem_of_dom in Hid. set_solver.
    - by rewrite dom_insert_L. }
  assert (is_Some (form rq !! "password")) as Hpd%elem_of_dom by eauto.
  exists d', ut, p, fname. split_and!; try done.
  - rewrite Hsame; rewrite (registered_doc_form ev rq fname p ut "user_type" ut);
      try done; unfold register_overwrites; set_solver.
  - rewrite Hsame; rewrite registered_doc_password; eauto.
  - rewrite Hsame; rewrite registered_doc_image_url; eauto.
  - rewrite Hsame; rewrite registered_doc_created_at; eauto.
  - intros k s Hk Hn.
    rewrite Hsame; rewrite (registered_doc_form ev rq fname p ut k s); eauto.
  - rewrite Hdom, registered_doc_dom. set_solver.
  - intros Hfarmer.
    destruct (registered_doc_farmer ev rq fname p ut Hfarmer) as [H1 H2].
    split; rewrite Hsame; rewrite ?H1, ?H2; eauto.
Qed.

Lemma C4_inserted_record_witness :
  let rq := Sample.post Sample.alice_form {[ "profile_picture" := Sample.png ]} in
  let res := @register Sample.werkzeug Sample.cfg Sample.ev rq Sample.empty_world in
  users res.2 ≠ users Sample.empty_world ∧
  ∃ d', users res.2 = users Sample.empty_world ++ [d'] ∧
        d' !! "user_type" = Some (VStr "farmer").
Proof.
  intros rq res.
  assert (users res.2 ≠ users Sample.empty_world) as Hne by compute_done.
  split; [exact Hne|].
  destruct (@C4_inserted_record Sample.werkzeug Sample.cfg Sample.ev rq
              Sample.empty_world Hne)
    as (d' & ut & p & fname & Hus & Hut & _ & Hd & _).
  exists d'. split; [exact Hus|].
  assert (form rq !! "user_type" = Some "farmer") as Hf by compute_done.
  rewrite Hf in Hut. injection Hut as <-. exact Hd.
Defined.

Lemma C4_counterexample :
  let rq := Sample.post {[ "name" := "Mallory"; "email" := "m@x.com";
                           "password" := "pw"; "user_type" := "admin";
                           "is_admin" := "yes" ]}
              {[ "profile_picture" := Sample.png ]} in
  let w' := (@register Sample.werkzeug Sample.cfg Sample.ev rq
               Sample.empty_world).2 in
  length (users w') = 1%nat ∧
  (users w' !! 0%nat) ≫= (.!! "user_type") = Some (VStr "admin") ∧
  (users w' !! 0%nat) ≫= (.!! "is_admin") = Some (VStr "yes") ∧
  VStr "admin" ≠ VStr "farmer" ∧ VStr "admin" ≠ VStr "customer".
Proof. cbv zeta. compute_done. Qed.

(** Claim C5, as amended.  A registration and a profile-picture update store
    the image as the relative path [uploads/<filename>], and the file saved
    in the upload folder is the one this path names under the static folder.
    A product upload stores the static URL [/static/uploads/<filename>] of
    the file it saved in the upload folder. *)
Theorem C5_image_paths `{W : Werkzeug} `{B : Builtins} (cfg : config) (ev : env)
    (rq : request) (w : world) :
  (users (register cfg ev rq w).2 ≠ users w →
   ∃ fname d',
     users (register cfg ev rq w).2 = users w ++ [d'] ∧
     d' !! "image_url" = Some (VStr ("uploads/" +:+ fname)) ∧
     is_Some (files (fs (register cfg ev rq w).2)
                !! os_path_join (static_folder cfg) ("uploads/" +:+ fname))) ∧
  (∀ i d',
     users (update_profile_picture cfg ev rq w).2 !! i = Some d' →
     users w !! i ≠ Some d' →
     ∃ fname,
       d' !! "image_url" = Some (VStr ("uploads/" +:+ fname)) ∧
       is_Some (files (fs (update_profile_picture cfg ev rq w).2)
                  !! os_path_join (static_folder cfg) ("uploads/" +:+ fname))) ∧
  (products (add_product cfg ev rq w).2 ≠ products w →
   ∃ fname d',
     products (add_product cfg ev rq w).2 = products w ++ [d'] ∧
     d' !! "image_url" = Some (VStr ("/static/uploads/" +:+ fname)) ∧
     is_Some (files (fs (add_product cfg ev rq w).2)
                !! os_path_join (UPLOAD_FOLDER cfg) fname)).
Proof.
  split_and!.
  - intros Hne.
    destruct (register_cases cfg ev rq w)
      as [[Heq _]|(f & e & p & ut & us & _ & _ & _ & _ & _ & _ & Hins & Hrun)];
      [done|].
    cbv zeta in Hins, Hrun. rewrite Hrun. wsimpl.
    destruct (insert_one_lookup _ _ _ _ Hins) as (d' & -> & _ & Hd').
    eexists _, d'. split_and!; [done| |].
    + rewrite Hd' by done. apply registered_doc_image_url.
    + unfold static_folder. rewrite join_uploads by done.
      fold (UPLOAD_FOLDER cfg). rewrite lookup_insert_eq. eauto.
  - intros i d' Hi Hne.
    destruct (update_profile_picture_cases cfg ev rq w)
      as [Heq|(uid & f & e & _ & _ & _ & Hus & Hfile)].
    { by rewrite Heq in Hi. }
    cbv zeta in Hus, Hfile. rewrite Hus in Hi.
    apply update_one_lookup_inv in Hi as (d & Hd & [->|[-> _]]); [done|].
    eexists. split.
    + rewrite apply_set_lookup. by rewrite lookup_singleton_eq.
    + unfold static_folder. rewrite join_uploads by done.
      fold (UPLOAD_FOLDER cfg). rewrite Hfile. eauto.
  - intros Hne.
    destruct (add_product_cases cfg ev rq w)
      as [Heq|(f & d & ps & _ & _ & Hd & Hins & Hps & Hfile)]; [done|].
    cbv zeta in Hd, Hins, Hps, Hfile. rewrite Hps.
    destruct (insert_one_lookup _ _ _ _ Hins) as (d' & -> & _ & Hd').
    eexists _, d'. split_and!; [done| |].
    + rewrite Hd' by done. by rewrite lookup_insert_eq.
    + rewrite Hfile. eauto.
Qed.

Lemma C5_image_paths_witness :
  let rq := Sample.post Sample.alice_form {[ "profile_picture" := Sample.png ]} in
  let res := @register Sample.werkzeug Sample.cfg Sample.ev rq Sample.empty_world in
  users res.2 ≠ users Sample.empty_world ∧
  ∃ fname d', users res.2 = users Sample.empty_world ++ [d'] ∧
              d' !! "image_url" = Some (VStr ("uploads/" +:+ fname)).
Proof.
  intros rq res.
  assert (users res.2 ≠ users Sample.empty_world) as Hne by compute_done.
  split; [exact Hne|].
  destruct (@C5_image_paths Sample.werkzeug Sample.builtins Sample.cfg Sample.ev
              rq Sample.empty_world) as (Hreg & _ & _).
  destruct (Hreg Hne) as (fname & d' & Hus & Hd & _).
  exists fname, d'. split; [exact Hus | exact Hd].
Defined.

Lemma C5_counterexample :
  let rq := Sample.post {[ "name" := "Apples"; "category" := "fruit";
                           "price" := "12.5"; "quantity" := "10";
                           "description" := "Fresh apples" ]}
              {[ "image" := {| filename := "apple.png"; content := "PNG" |} ]} in
  let w' := (@add_product Sample.werkzeug Sample.builtins Sample.cfg Sample.ev rq
               Sample.bob_world).2 in
  length (products w') = 1%nat ∧
  (products w' !! 0%nat) ≫= (.!! "image_url")
    = Some (VStr "/static/uploads/20240517_103000_apple.png") ∧
  PyStr.startswith "uploads/" "/static/uploads/20240517_103000_apple.png" = false.
Proof. cbv zeta. compute_done. Qed.

Lemma fmap_snd {A C} (g : A → C) (m : M A) w : ((g <$> m) w).2 = (m w).2.
Proof. unfold fmap, M_fmap. by destruct (m w) as [[a|e] w']. Qed.

Section PasswordFacts.
Context `{W : Werkzeug} `{B : Builtins}.
Variables (cfg : config) (ev : env) (rq : request) (w : world).








End PasswordFacts.




Section ProfileFacts.
Context `{B : Builtins}.
Variables (cfg : config) (w : world).

Lemma setdefault_lookup_ne k v (d : doc) k' :
  k ≠ k' → setdefault k v d !! k' = d !! k'.
Proof.
  intros Hk. unfold setdefault. destruct (d !! k); [done|].
  by rewrite lookup_insert_ne.
Qed.

Lemma project_lookup fields (d : doc) k :
  k = "_id" ∨ k ∈ fields → Mongo.project fields d !! k = d !! k.
Proof.
  intros Hk. unfold Mongo.project. destruct (d !! k) as [v|] eqn:Hd.
  - by apply map_lookup_filter_Some.
  - apply map_lookup_filter_None. left. done.
Qed.

Lemma profile_record_lookup d i k :
  k ∈ ["image_url"; "user_type"] → profile_record d i !! k = d !! k.
Proof.
  intros Hk. unfold profile_record.
  assert (k ≠ "description" ∧ k ≠ "social_links" ∧ k ≠ "location" ∧ k ≠ "_id")
    as (? & ? & ? & ?) by set_solver.
  rewrite !setdefault_lookup_ne by done.
  rewrite lookup_insert_ne by done.
  apply project_lookup. right. unfold profile_projection. set_solver.
Qed.

Lemma profile_found v uid d :
  session w !! "user_id" = Some v → Bson.parse v = inl uid →
  Mongo.find_one {[ "_id" := VOid uid ]} (users w) = Some d →
  profile cfg w =
    match resolve_image cfg (profile_record d (VOid uid)) w with
    | (Ok user, w') =>
        (Ok (Render (profile_template user) [("user", CDoc (Some user))]), w')
    | (Raise _, w') =>
        (Ok (Redirect "dashboard"),
         with_flashed
           (flashed w' ++ [("Failed to load profile. Please try again.", "error")])
           w')
    end.
Proof.
  intros Hs Hp Hd. unfold profile. run.
  rewrite (validate_logged_in _ _ _ Hs Hp). cbn beta iota.
  rewrite Hd. cbn [fmap option_fmap option_map].
  assert (d !! "_id" = Some (VOid uid)) as Hid.
  { apply find_one_matches in Hd as [Hm _]. rewrite matches_singleton in Hm.
    by apply bool_decide_eq_true in Hm. }
  rewrite project_lookup by (by left). rewrite Hid. cbn beta iota.
  fold (profile_record d (VOid uid)).
  destruct (resolve_image cfg (profile_record d (VOid uid)) w) as [[u|e] w'];
    done.
Qed.


End ProfileFacts.



(** ** Further properties of the handlers *)

Lemma contains_char_app c a b :
  PyStr.contains_char c (a +:+ String c b) = true.
Proof.
  induction a as [|d a IH].
  - simpl. by rewrite Ascii.eqb_refl.
  - change (String d a +:+ String c b) with (String d (a +:+ String c b)).
    cbn [PyStr.contains_char]. rewrite IH. by destruct (Ascii.eqb c d).
Qed.

(** X1.  [allowed_file] accepts exactly the names that end in a dot followed
    by a dot-free extension whose lower-case form is in the allow-list: only
    the text after the last dot counts, in any letter case. *)
Theorem X1_allowed_file_accepts (name : string) :
  allowed_file name = true ↔
  ∃ a b, name = a +:+ "." +:+ b ∧ PyStr.contains_char "." b = false ∧
         PyStr.lower b ∈ ALLOWED_EXTENSIONS.
Proof.
  unfold allowed_file. split.
  - destruct (PyStr.contains_char "." name) eqn:Hd; [|done].
    destruct (contains_char_split _ _ Hd) as (a & b & -> & Hb).
    rewrite (rsplit1_last _ _ _ Hb). simpl. intros Hin.
    exists a, b. split_and!; [done..|]. by apply bool_decide_eq_true in Hin.
  - intros (a & b & -> & Hb & Hin).
    change (a +:+ "." +:+ b) with (a +:+ String "." b).
    rewrite (rsplit1_last _ _ _ Hb). simpl.
    rewrite bool_decide_eq_true_2 by done.
    rewrite andb_true_r. apply contains_char_app.
Qed.

Section Guard.
Context `{W : Werkzeug} `{B : Builtins}.
Variables (cfg : config) (ev : env) (rq : request) (w : world).

Lemma validate_not_logged_in :
  (∀ uid, ¬ logged_in w uid) →
  ∃ s, validate_user_session w = (Ok None, with_session s w) ∧
       (s = session w ∧ session w !! "user_id" = None ∨
        s = ∅ ∧ is_Some (session w !! "user_id")).
Proof.
  intros Hno. unfold validate_user_session. run. cbn beta iota.
  destruct (session w !! "user_id") as [v|] eqn:Hs.
  - destruct (Bson.parse v) as [uid|e] eqn:Hp.
    + destruct (Hno uid). by exists v.
    + exists ∅. split; [done|]. right. eauto.
  - exists (session w). rewrite with_session_id. eauto.
Qed.

Lemma guard_redirects r :
  guarded r = true → method rq ∈ route_methods r →
  (∀ uid, ¬ logged_in w uid) →
  ∃ s msgs,
    handle cfg ev rq r w =
      (Ok (Some (Redirect "login")),
       with_flashed (flashed w ++ msgs) (with_session s w)) ∧
    s !! "user_id" = None ∧
    (is_Some (session w !! "user_id") → s = ∅).
Proof.
  intros Hg Hm Hno.
  destruct validate_not_logged_in as (s & Hv & Hs); [done|].
  assert (s !! "user_id" = None ∧ (is_Some (session w !! "user_id") → s = ∅))
    as [Hs1 Hs2].
  { destruct Hs as [[-> Hn]|[-> Hsome]]; split; try done.
    intros [? ?]; congruence. }
  unfold handle. rewrite bool_decide_eq_true_2 by done.
  unfold fmap, M_fmap.
  destruct r; try done;
    [ unfold dashboard | unfold add_product | unfold update_profile
    | unfold update_profile_picture | unfold update_social_links
    | unfold change_password | unfold profile ];
    run; rewrite Hv; cbn beta iota;
    try (eexists s, [_]; split_and!; [reflexivity|done..]).
  all: exists s, []; rewrite app_nil_r; split_and!; try done.
  all: by destruct s as [], w.
Qed.
End Guard.



(** X3.  After [logout], whatever the session held, every session-guarded
    route redirects to the login page and leaves users, products, orders and
    the filesystem alone. *)
Theorem X3_logout_then_guarded `{W : Werkzeug} `{B : Builtins}
    (cfg : config) (ev : env) (rq : request) (w : world) (r : route) :
  guarded r = true → method rq ∈ route_methods r →
  let w1 := (logout w).2 in
  (logout w).1 = Ok (Redirect "index") ∧
  session w1 = ∅ ∧ store_unchanged w w1 ∧
  (handle cfg ev rq r w1).1 = Ok (Some (Redirect "login")) ∧
  store_unchanged w (handle cfg ev rq r w1).2.
Proof.
  intros Hg Hm w1.
  assert (∀ uid, ¬ logged_in w1 uid) as Hno.
  { intros uid (v & Hv & _).
    change (session w1) with (∅ : gmap string value) in Hv.
    by rewrite lookup_empty in Hv. }
  destruct (guard_redirects cfg ev rq w1 r Hg Hm Hno) as (s & msgs & Hrun & _).
  rewrite Hrun. by split_and!.
Qed.

Lemma X3_logout_then_guarded_witness :
  let rq := Sample.post {[ "name" := "Eve" ]} ∅ in
  method rq ∈ route_methods RUpdateProfile ∧
  users (@handle Sample.werkzeug Sample.builtins Sample.cfg Sample.ev rq
           RUpdateProfile (logout Sample.bob_world).2).2
    = users Sample.bob_world.
Proof.
  intros rq.
  assert (method rq ∈ route_methods RUpdateProfile) as Hm by compute_done.
  split; [exact Hm|].
  destruct (@X3_logout_then_guarded Sample.werkzeug Sample.builtins Sample.cfg
              Sample.ev rq Sample.bob_world RUpdateProfile eq_refl Hm)
    as (_ & _ & _ & _ & Hst).
  destruct Hst as (Hu & _). exact Hu.
Defined.

Lemma find_one_app q coll d :
  Mongo.find_one q (coll ++ [d]) =
    match Mongo.find_one q coll with
    | Some x => Some x
    | None => if Mongo.matches q d then Some d else None
    end.
Proof.
  unfold Mongo.find_one, Mongo.find. rewrite List.filter_app.
  destruct (List.filter (Mongo.matches q) coll) as [|x l] eqn:Hl; simpl.
  - by destruct (Mongo.matches q d).
  - done.
Qed.

Section LoginSuccess.
Context `{W : Werkzeug} `{B : Builtins}.
Variables (rq : request) (w : world).

Lemma login_success em pw u h i t :
  method rq = "POST" →
  form rq !! "email" = Some em → form rq !! "password" = Some pw →
  em ≠ "" → pw ≠ "" →
  Mongo.find_one {[ "email" := VStr em ]} (users w) = Some u →
  u !! "password" = Some (VStr h) → check_password_hash h pw = true →
  u !! "_id" = Some i → u !! "user_type" = Some t →
  login rq w =
    (Ok (Redirect "dashboard"),
     with_flashed (flashed w ++ [("Login successful!", "success")])
       (with_session
          (<["name" := default (VStr "User") (u !! "name")]>
             (<["user_type" := t]>
                (<["user_id" := VStr (py_str i)]> (session w)))) w)).
Proof.
  intros Hm He Hp Hem Hpw Hu Hh Hc Hi Ht. unfold login.
  rewrite Hm, He, Hp. simpl.
  destruct em; [done|]. destruct pw; [done|]. simpl.
  run. cbn beta iota.
  rewrite Hu. cbn beta iota. rewrite Hh. cbn beta iota. rewrite Hc.
  cbn beta iota. rewrite Hi. cbn beta iota. rewrite Ht. by destruct w.
Qed.
End LoginSuccess.

(** X4.  A login POST with the email of a stored user whose hash accepts
    the submitted password puts the user's identifier (as text), role and
    name into the session, flashes "Login successful!" and redirects to the
    dashboard; when the identifier is a well-formed [ObjectId] in canonical
    text, [validate_user_session] afterwards returns exactly that
    identifier and changes nothing. *)
Theorem X4_login_then_validate `{W : Werkzeug} `{B : Builtins}
    (rq : request) (w : world) (em pw h : string) (u : doc) (o : ObjectId)
    (t : value) :
  method rq = "POST" →
  form rq !! "email" = Some em → form rq !! "password" = Some pw →
  em ≠ "" → pw ≠ "" →
  Mongo.find_one {[ "email" := VStr em ]} (users w) = Some u →
  u !! "password" = Some (VStr h) → check_password_hash h pw = true →
  u !! "_id" = Some (VOid o) → u !! "user_type" = Some t →
  Bson.is_valid o = true → PyStr.lower o = o →
  let res := login rq w in
  res.1 = Ok (Redirect "dashboard") ∧
  flashed res.2 = flashed w ++ [("Login successful!", "success")] ∧
  session res.2 !! "user_id" = Some (VStr o) ∧
  session res.2 !! "user_type" = Some t ∧
  session res.2 !! "name" = Some (default (VStr "User") (u !! "name")) ∧
  store_unchanged w res.2 ∧
  validate_user_session res.2 = (Ok (Some o), res.2).
Proof.
  intros Hm He Hp Hem Hpw Hu Hh Hc Hi Ht Hv Hl res. subst res.
  rewrite (login_success rq w em pw u h (VOid o) t) by done.
  cbn [fst snd session flashed with_flashed with_session py_str].
  assert (∀ s : gmap string value,
            <["name" := default (VStr "User") (u !! "name")]>
              (<["user_type" := t]> (<["user_id" := VStr o]> s)) !! "user_id"
            = Some (VStr o)) as Hid.
  { intros s. rewrite !lookup_insert_ne by done. apply lookup_insert_eq. }
  split_and!; try done.
  - rewrite lookup_insert_ne by done. apply lookup_insert_eq.
  - apply lookup_insert_eq.
  - eapply validate_logged_in; [apply Hid|]. simpl. by rewrite Hv, Hl.
Qed.

Lemma X4_login_then_validate_witness :
  let rq := Sample.post {[ "email" := "bob@x.com"; "password" := "hunter2" ]} ∅ in
  let w := with_session ∅ Sample.bob_world in
  (Mongo.find_one {[ "email" := VStr "bob@x.com" ]} (users w) = Some Sample.bob ∧
   Sample.check (Sample.hash "NaCl" "hunter2") "hunter2" = true) ∧
  session (@login Sample.werkzeug Sample.builtins rq w).2 !! "user_id"
    = Some (VStr Sample.bob_id).
Proof.
  intros rq w.
  assert (Mongo.find_one {[ "email" := VStr "bob@x.com" ]} (users w)
            = Some Sample.bob ∧
          Sample.check (Sample.hash "NaCl" "hunter2") "hunter2" = true)
    as Hyp by compute_done.
  split; [exact Hyp|]. destruct Hyp as [Hu Hc].
  destruct (@X4_login_then_validate Sample.werkzeug Sample.builtins rq w
              "bob@x.com" "hunter2" (Sample.hash "NaCl" "hunter2") Sample.bob
              Sample.bob_id (VStr "farmer"))
    as (_ & _ & Hid & _);
    [ reflexivity | compute_done | compute_done | discriminate | discriminate
    | exact Hu | compute_done | exact Hc | compute_done | compute_done
    | compute_done | compute_done | exact Hid ].
Defined.

Section RegisterLogin.
Context `{W : Werkzeug} `{B : Builtins}.
Variables (cfg : config) (ev : env) (rq : request) (w : world).

(** What a registration that inserted a record leaves behind. *)
Lemma register_inserted :
  users (register cfg ev rq w).2 ≠ users w →
  ∃ d' fname p ut,
    form rq !! "password" = Some p ∧ form rq !! "user_type" = Some ut ∧
    users (register cfg ev rq w).2 = users w ++ [d'] ∧
    (register cfg ev rq w).1 = Ok (Redirect "login") ∧
    flashed (register cfg ev rq w).2 =
      flashed w ++ [("Account created successfully! Please login.", "success")] ∧
    session (register cfg ev rq w).2 = session w ∧
    is_Some (d' !! "_id") ∧
    (d' !! "_id" = VStr <$> form rq !! "_id" ∨
     form rq !! "_id" = None ∧ d' !! "_id" = Some (VOid (fresh_oid ev))) ∧
    ∀ k, k ≠ "_id" → d' !! k = registered_doc ev rq fname p ut !! k.
Proof.
  intros Hne.
  destruct (register_cases cfg ev rq w)
    as [[Heq _]|(f & e & p & ut & us & _ & _ & _ & _ & Hp & Hut & Hins & Hrun)];
    [done|].
  cbv zeta in Hins, Hrun. rewrite Hrun. wsimpl.
  destruct (insert_one_inv _ _ _ _ Hins) as (d' & -> & Hid & Hd').
  eexists d', _, p, ut. split_and!; try done.
  - destruct Hd' as [->|[Hnone ->]].
    + left. destruct (form rq !! "_id") as [s|] eqn:Hf.
      * apply registered_doc_form; [done|]. unfold register_overwrites.
        set_solver.
      * exfalso. destruct Hid as [x Hx].
        assert (is_Some (registered_doc ev rq
                  ("user_" +:+ Strftime.compact (now ev) +:+ "." +:+ PyStr.lower e)
                  p ut !! "_id")) as Hs%elem_of_dom by eauto.
        rewrite registered_doc_dom in Hs. apply not_elem_of_dom in Hf.
        unfold farmer_keys in Hs. destruct (String.eqb ut "farmer"); set_solver.
    + right. split; [|apply lookup_insert_eq].
      apply not_elem_of_dom. apply not_elem_of_dom in Hnone.
      rewrite registered_doc_dom in Hnone. set_solver.
  - intros k Hk. destruct Hd' as [->|[_ ->]]; [done|].
    by rewrite lookup_insert_ne.
Qed.
End RegisterLogin.

(** X5.  Registration then login: when no stored user has the submitted
    email, and the hasher verifies what it hashed, a registration that
    inserted its record is followed by a successful login with the same
    email and password, which puts the submitted [user_type] and [name]
    into the session. *)
Theorem X5_register_then_login `{W : Werkzeug} `{B : Builtins}
    (cfg : config) (ev : env) (rq rq' : request) (w : world)
    (em pw nm ut : string) :
  users (register cfg ev rq w).2 ≠ users w →
  form rq !! "email" = Some em → form rq !! "password" = Some pw →
  form rq !! "name" = Some nm → form rq !! "user_type" = Some ut →
  em ≠ "" → pw ≠ "" →
  Mongo.find_one {[ "email" := VStr em ]} (users w) = None →
  check_password_hash (generate_password_hash (salt ev) pw) pw = true →
  method rq' = "POST" →
  form rq' !! "email" = Some em → form rq' !! "password" = Some pw →
  let res := login rq' (register cfg ev rq w).2 in
  res.1 = Ok (Redirect "dashboard") ∧
  session res.2 !! "user_type" = Some (VStr ut) ∧
  session res.2 !! "name" = Some (VStr nm) ∧
  is_Some (session res.2 !! "user_id").
Proof.
  intros Hne He Hp Hn Ht Hem Hpw Hfree Hrt Hm He' Hp' res.
  destruct (register_inserted cfg ev rq w Hne)
    as (d' & fname & p & ut' & Hp2 & Ht2 & Hus & _ & _ & _ & [i Hid] & _ & Hd').
  rewrite Hp in Hp2. injection Hp2 as <-. rewrite Ht in Ht2. injection Ht2 as <-.
  assert (∀ k s, form rq !! k = Some s → k ≠ "_id" → k ∉ register_overwrites →
                 d' !! k = Some (VStr s)) as Hform.
  { intros k s Hk Hk1 Hk2. rewrite Hd' by done. by apply registered_doc_form. }
  assert (d' !! "email" = Some (VStr em)) as Hde
    by (apply Hform; [done|done|unfold register_overwrites; set_solver]).
  assert (d' !! "name" = Some (VStr nm)) as Hdn
    by (apply Hform; [done|done|unfold register_overwrites; set_solver]).
  assert (d' !! "user_type" = Some (VStr ut)) as Hdt
    by (apply Hform; [done|done|unfold register_overwrites; set_solver]).
  assert (d' !! "password" = Some (VStr (generate_password_hash (salt ev) pw)))
    as Hdp by (rewrite Hd' by done; apply registered_doc_password).
  assert (Mongo.find_one {[ "email" := VStr em ]}
            (users (register cfg ev rq w).2) = Some d') as Hfind.
  { rewrite Hus, find_one_app, Hfree, matches_singleton.
    by rewrite bool_decide_eq_true_2. }
  subst res.
  rewrite (login_success rq' _ em pw d' _ i (VStr ut) Hm He' Hp' Hem Hpw Hfind
             Hdp Hrt Hid Hdt).
  cbn [fst snd session with_flashed with_session]. rewrite Hdn.
  split_and!; [done| | |].
  - rewrite lookup_insert_ne by done. apply lookup_insert_eq.
  - apply lookup_insert_eq.
  - rewrite !lookup_insert_ne by done. rewrite lookup_insert_eq. eauto.
Qed.

Lemma X5_register_then_login_witness :
  let rq := Sample.post Sample.alice_form {[ "profile_picture" := Sample.png ]} in
  let rq' := Sample.post {[ "email" := "alice@x.com";
                            "password" := "secret123" ]} ∅ in
  let w1 := (@register Sample.werkzeug Sample.cfg Sample.ev rq
               Sample.empty_world).2 in
  (users w1 ≠ users Sample.empty_world ∧
   Sample.check (Sample.hash (salt Sample.ev) "secret123") "secret123" = true) ∧
  session (@login Sample.werkzeug Sample.builtins rq' w1).2 !! "user_type"
    = Some (VStr "farmer").
Proof.
  intros rq rq' w1.
  assert (users w1 ≠ users Sample.empty_world ∧
          Sample.check (Sample.hash (salt Sample.ev) "secret123") "secret123"
            = true) as Hyp by compute_done.
  split; [exact Hyp|]. destruct Hyp as [Hne Hrt].
  destruct (@X5_register_then_login Sample.werkzeug Sample.builtins Sample.cfg
              Sample.ev rq rq' Sample.empty_world
              "alice@x.com" "secret123" "Alice" "farmer" Hne)
    as (_ & Hty & _);
    [ compute_done | compute_done | compute_done | compute_done
    | discriminate | discriminate | compute_done | exact Hrt | reflexivity
    | compute_done | compute_done | exact Hty ].
Defined.

(** X6.  Email uniqueness is not enforced, and login authenticates against
    the first record with the email: when a user with the email is already
    stored, a later registration under the same email succeeds, but a login
    with the new account's password is refused whenever the earlier record's
    hash rejects that password. *)
Theorem X6_duplicate_email_shadowed `{W : Werkzeug} `{B : Builtins}
    (cfg : config) (ev : env) (rq rq' : request) (w : world)
    (em pw h0 : string) (u0 : doc) :
  users (register cfg ev rq w).2 ≠ users w →
  Mongo.find_one {[ "email" := VStr em ]} (users w) = Some u0 →
  u0 !! "password" = Some (VStr h0) → check_password_hash h0 pw = false →
  em ≠ "" → pw ≠ "" →
  method rq' = "POST" →
  form rq' !! "email" = Some em → form rq' !! "password" = Some pw →
  let w1 := (register cfg ev rq w).2 in
  Mongo.find_one {[ "email" := VStr em ]} (users w1) = Some u0 ∧
  (login rq' w1).1 = Ok (Render "auth/login.html" []) ∧
  flashed (login rq' w1).2 = flashed w1 ++ [("Invalid email or password", "error")] ∧
  session (login rq' w1).2 = session w1.
Proof.
  intros Hne Hu0 Hh0 Hc Hem Hpw Hm He' Hp' w1.
  destruct (register_inserted cfg ev rq w Hne)
    as (d' & fname & p & ut & _ & _ & Hus & _).
  assert (Mongo.find_one {[ "email" := VStr em ]} (users w1) = Some u0) as Hfind.
  { subst w1. by rewrite Hus, find_one_app, Hu0. }
  split; [done|].
  rewrite (login_failure rq' w1 em pw Hm He' Hp' Hem Hpw); [done|].
  right. eauto.
Qed.

Lemma X6_duplicate_email_shadowed_witness :
  let rq := Sample.post {[ "name" := "Bobby"; "email" := "bob@x.com";
                           "password" := "other"; "user_type" := "customer" ]}
              {[ "profile_picture" := Sample.png ]} in
  let rq' := Sample.post {[ "email" := "bob@x.com"; "password" := "other" ]} ∅ in
  let w1 := (@register Sample.werkzeug Sample.cfg Sample.ev rq
               Sample.bob_world).2 in
  (users w1 ≠ users Sample.bob_world ∧
   Mongo.find_one {[ "email" := VStr "bob@x.com" ]} (users Sample.bob_world)
     = Some Sample.bob ∧
   Sample.check (Sample.hash "NaCl" "hunter2") "other" = false) ∧
  (@login Sample.werkzeug Sample.builtins rq' w1).1
    = Ok (Render "auth/login.html" []).
Proof.
  intros rq rq' w1.
  assert (users w1 ≠ users Sample.bob_world ∧
          Mongo.find_one {[ "email" := VStr "bob@x.com" ]}
            (users Sample.bob_world) = Some Sample.bob ∧
          Sample.check (Sample.hash "NaCl" "hunter2") "other" = false)
    as Hyp by compute_done.
  split; [exact Hyp|]. destruct Hyp as (Hne & Hu & Hc).
  destruct (@X6_duplicate_email_shadowed Sample.werkzeug Sample.builtins
              Sample.cfg Sample.ev rq rq' Sample.bob_world
              "bob@x.com" "other" (Sample.hash "NaCl" "hunter2") Sample.bob
              Hne Hu)
    as (_ & Hresp & _);
    [ compute_done | exact Hc | discriminate | discriminate | reflexivity
    | compute_done | compute_done | exact Hresp ].
Defined.

Section RegisterFrame.
Context `{W : Werkzeug}.
Variables (cfg : config) (ev : env) (rq : request).

Lemma register_keeps_products : keeps products (register cfg ev rq).
Proof.
  unfold register. keeps_tac;
    first [ by apply keeps_makedirs | by apply keeps_save | by apply keeps_chmod ].
Qed.

Lemma register_keeps_orders : keeps orders (register cfg ev rq).
Proof.
  unfold register. keeps_tac;
    first [ by apply keeps_makedirs | by apply keeps_save | by apply keeps_chmod ].
Qed.

Lemma register_keeps_session : keeps session (register cfg ev rq).
Proof.
  unfold register. keeps_tac;
    first [ by apply keeps_makedirs | by apply keeps_save | by apply keeps_chmod ].
Qed.

End RegisterFrame.

(** X7.  Registration is all-or-nothing on the users collection: it either
    appends exactly one record, announces success and redirects to the login
    page, or leaves the collection as it was and does not redirect there.
    In both cases products, orders and the session are untouched. *)
Theorem X7_register_all_or_nothing `{W : Werkzeug} (cfg : config) (ev : env)
    (rq : request) (w : world) :
  let res := register cfg ev rq w in
  ((users res.2 = users w ∧ res.1 ≠ Ok (Redirect "login")) ∨
   (∃ d', users res.2 = users w ++ [d'] ∧ res.1 = Ok (Redirect "login") ∧
          flashed res.2 =
            flashed w ++ [("Account created successfully! Please login.",
                           "success")])) ∧
  products res.2 = products w ∧ orders res.2 = orders w ∧
  session res.2 = session w.
Proof.
  intros res. subst res. split_and!.
  - destruct (register_cases cfg ev rq w)
      as [?|(f & e & p & ut & us & _ & _ & _ & _ & _ & _ & Hins & Hrun)];
      [by left|right].
    cbv zeta in Hins, Hrun. rewrite Hrun.
    destruct (insert_one_inv _ _ _ _ Hins) as (d' & -> & _). by exists d'.
  - apply register_keeps_products.
  - apply register_keeps_orders.
  - apply register_keeps_session.
Qed.



Lemma update_one_no_match q upd coll :
  Mongo.find_one q coll = None → Mongo.update_one q upd coll = (coll, 0%nat).
Proof.
  unfold Mongo.find_one, Mongo.find.
  induction coll as [|d r IH]; simpl; [done|].
  destruct (Mongo.matches q d); [done|]. intros Hr. by rewrite IH.
Qed.

Section ProductFacts.
Context `{W : Werkzeug} `{B : Builtins}.
Variables (cfg : config) (ev : env) (rq : request) (w : world).

(** X9.  A logged-in user whose session is not a farmer's cannot add a
    product: whatever is submitted, [add_product] flashes the warning,
    redirects to the login page and changes nothing else. *)
Theorem X9_add_product_farmers_only uid :
  logged_in w uid → ¬ farmer_session w →
  add_product cfg ev rq w =
    (Ok (Redirect "login"),
     with_flashed
       (flashed w ++ [("Please login as a farmer to add products", "warning")]) w).
Proof.
  intros (v & Hs & Hp) Hnf. unfold add_product. run.
  rewrite (validate_logged_in _ _ _ Hs Hp). cbn beta iota.
  unfold farmer_session in Hnf. by destruct (eq_str _ _).
Qed.

Ltac enter uid Hlog Hfarm Hm Hform :=
  let v := fresh "v" in let Hs := fresh "Hs" in let Hp := fresh "Hp" in
  destruct Hlog as (v & Hs & Hp);
  destruct Hform as (Hf1 & Hf2 & Hf3 & Hf4 & Hf5);
  unfold add_product, Os.save, Os.chmod; run;
  rewrite (validate_logged_in _ _ _ Hs Hp); cbn beta iota;
  unfold farmer_session in Hfarm; rewrite Hfarm, Hm, String.eqb_refl;
  cbn [negb]; cbn beta iota;
  unfold add_product_required_fields, has_key; cbn [forallb];
  rewrite Hf1, Hf2, Hf3, Hf4, Hf5; cbn [andb negb]; cbn beta iota.

(** X10.  When the price does not parse as a float or the quantity does not
    parse as an integer, a farmer's product POST is answered with "Invalid
    price or quantity" before the image is looked at: nothing is stored and
    no file is written, whatever file came with the form. *)
Theorem X10_add_product_invalid_number uid nm cat ps qs ds :
  logged_in w uid → farmer_session w → method rq = "POST" →
  product_form rq nm cat ps qs ds →
  py_float ps = None ∨ py_int qs = None →
  add_product cfg ev rq w =
    (Ok RedirectBack,
     with_flashed (flashed w ++ [("Invalid price or quantity", "error")]) w).
Proof.
  intros Hlog Hfarm Hm Hform Hbad. enter uid Hlog Hfarm Hm Hform.
  destruct (py_float ps) as [price|]; cbn beta iota; [|done].
  destruct Hbad as [Hb|Hb]; [done|by rewrite Hb].
Qed.

(** X12.  [add_product] does not create the upload directory: when it is
    missing, an otherwise valid product POST fails with "Error saving
    product image" and neither a file nor a product is stored. *)
Theorem X12_add_product_needs_upload_folder uid nm cat ps qs ds price qty f :
  logged_in w uid → farmer_session w → method rq = "POST" →
  product_form rq nm cat ps qs ds →
  py_float ps = Some price → py_int qs = Some qty →
  rfiles rq !! "image" = Some f → filename f ≠ "" →
  allowed_file (filename f) = true →
  UPLOAD_FOLDER cfg ∉ dirs (fs w) →
  add_product cfg ev rq w =
    (Ok RedirectBack,
     with_flashed (flashed w ++ [("Error saving product image", "error")]) w).
Proof.
  intros Hlog Hfarm Hm Hform Hp Hq Hf Hne Ha Hdir.
  enter uid Hlog Hfarm Hm Hform.
  rewrite Hp. cbn beta iota. rewrite Hq. cbn beta iota. rewrite Hf.
  apply String.eqb_neq in Hne. rewrite Hne, Ha.
  destruct (filename f); [done|]. cbn [PyStr.nonempty andb]. cbn beta iota.
  by rewrite bool_decide_eq_false_2.
Qed.

Lemma add_product_inserted :
  products (add_product cfg ev rq w).2 = products w ∨
  ∃ uid nm cat ps qs ds price qty f d',
    logged_in w uid ∧ farmer_session w ∧ method rq = "POST" ∧
    product_form rq nm cat ps qs ds ∧
    py_float ps = Some price ∧ py_int qs = Some qty ∧
    rfiles rq !! "image" = Some f ∧
    products (add_product cfg ev rq w).2 = products w ++ [d'] ∧
    (add_product cfg ev rq w).1 = Ok (Redirect "dashboard") ∧
    d' = <["_id" := VOid (fresh_oid ev)]>
           (<["image_url" :=
                VStr (url_for_static
                        ("uploads/" +:+ Strftime.underscored (now ev) +:+ "_"
                           +:+ secure_filename (filename f)))]>
              (product_doc ev rq uid nm cat ds price qty)).
Proof.
  unfold add_product, Os.save, Os.chmod.
  use_validate w; [|by left].
  destruct (eq_str _ _) eqn:Hfarm; wsimpl; [|by left].
  destruct (String.eqb (method rq) "POST") eqn:Hm; [|by left].
  apply String.eqb_eq in Hm.
  destruct (forallb _ _) eqn:Hreq; wsimpl; [|by left].
  unfold add_product_required_fields, has_key in Hreq. cbn [forallb] in Hreq.
  destruct (form rq !! "name") as [nm|] eqn:H1; [|by cbn in Hreq].
  destruct (form rq !! "category") as [cat|] eqn:H2; [|by cbn in Hreq].
  destruct (form rq !! "price") as [ps|] eqn:H3; [|by cbn in Hreq].
  destruct (form rq !! "quantity") as [qs|] eqn:H4; [|by cbn in Hreq].
  destruct (form rq !! "description") as [ds|] eqn:H5; [|by cbn in Hreq].
  clear Hreq.
  destruct (py_float ps) as [price|] eqn:Hpf; wsimpl; [|by left].
  destruct (py_int qs) as [qty|] eqn:Hpi; wsimpl; [|by left].
  destruct (rfiles rq !! "image") as [f|] eqn:Hf; [|by left].
  destruct (String.eqb (filename f) ""); [by left|].
  destruct (PyStr.nonempty (filename f)); [|by left].
  destruct (allowed_file (filename f)) eqn:Ha; [|by left]. wsimpl.
  case_bool_decide; [|by left]. wsimpl.
  rewrite lookup_insert_eq. wsimpl.
  fold (product_doc ev rq uid nm cat ds price qty).
  match goal with
  | |- context [Mongo.insert_one ?o ?d ?c] =>
      destruct (Mongo.insert_one o d c) as [ps'|] eqn:Hins; [|by left]
  end.
  wsimpl. right.
  destruct (insert_one_inv _ _ _ _ Hins) as (d' & -> & [i Hid] & [->|[_ ->]]).
  { exfalso. rewrite lookup_insert_ne in Hid by done. unfold product_doc in Hid.
    by rewrite !lookup_insert_ne, lookup_singleton_ne in Hid by done. }
  exists uid, nm, cat, ps, qs, ds, price, qty, f. eexists.
  split_and!; try done. by exists v.
Qed.
End ProductFacts.

Lemma X9_add_product_farmers_only_witness :
  let w := with_session {[ "user_id" := VStr Sample.bob_id;
                           "user_type" := VStr "customer" ]} Sample.bob_world in
  let rq := Sample.post {[ "name" := "Apples" ]} ∅ in
  (logged_in w Sample.bob_id ∧ ¬ farmer_session w) ∧
  products (@add_product Sample.werkzeug Sample.builtins Sample.cfg Sample.ev
              rq w).2 = products w.
Proof.
  intros w rq.
  assert (logged_in w Sample.bob_id) as Hlog.
  { exists (VStr Sample.bob_id). split; [compute_done | reflexivity]. }
  assert (¬ farmer_session w) as Hnf by (unfold farmer_session; compute_done).
  split; [by split|].
  by rewrite (@X9_add_product_farmers_only Sample.werkzeug Sample.builtins
                Sample.cfg Sample.ev rq w Sample.bob_id Hlog Hnf).
Defined.

Lemma X10_add_product_invalid_number_witness :
  let rq := Sample.post {[ "name" := "Apples"; "category" := "fruit";
                           "price" := "12.5"; "quantity" := "ten";
                           "description" := "Fresh" ]}
              {[ "image" := Sample.png ]} in
  (logged_in Sample.bob_world Sample.bob_id ∧ farmer_session Sample.bob_world ∧
   @py_int Sample.builtins "ten" = None) ∧
  fs (@add_product Sample.werkzeug Sample.builtins Sample.cfg Sample.ev rq
        Sample.bob_world).2 = fs Sample.bob_world.
Proof.
  intros rq.
  assert (logged_in Sample.bob_world Sample.bob_id) as Hlog.
  { exists (VStr Sample.bob_id). split; [compute_done | reflexivity]. }
  assert (farmer_session Sample.bob_world) as Hfarm
    by (unfold farmer_session; compute_done).
  assert (@py_int Sample.builtins "ten" = None) as Hq by reflexivity.
  split; [by split_and!|].
  rewrite (@X10_add_product_invalid_number Sample.werkzeug Sample.builtins
             Sample.cfg Sample.ev rq Sample.bob_world Sample.bob_id
             "Apples" "fruit" "12.5" "ten" "Fresh" Hlog Hfarm eq_refl);
    [reflexivity | unfold product_form; compute_done | by right].
Defined.

(** X11.  Every product [add_product] inserts is attributed to the logged-in
    farmer of the session and carries the submitted name, category and
    description, the parsed price and quantity, the organic flag set by the
    presence of [is_organic] in the form, the creation time and a fresh
    identifier. *)
Theorem X11_product_record `{W : Werkzeug} `{B : Builtins}
    (cfg : config) (ev : env) (rq : request) (w : world) :
  products (add_product cfg ev rq w).2 ≠ products w →
  ∃ uid d' price qty,
    logged_in w uid ∧ farmer_session w ∧
    products (add_product cfg ev rq w).2 = products w ++ [d'] ∧
    d' !! "farmer_id" = Some (VOid uid) ∧
    d' !! "name" = VStr <$> form rq !! "name" ∧
    d' !! "category" = VStr <$> form rq !! "category" ∧
    d' !! "description" = VStr <$> form rq !! "description" ∧
    form rq !! "price" ≫= py_float = Some price ∧
    d' !! "price" = Some (VFloat price) ∧
    form rq !! "quantity" ≫= py_int = Some qty ∧
    d' !! "quantity" = Some (VInt qty) ∧
    d' !! "is_organic" = Some (VBool (has_key (form rq) "is_organic")) ∧
    d' !! "created_at" = Some (VDate (utcnow ev)) ∧
    d' !! "_id" = Some (VOid (fresh_oid ev)).
Proof.
  intros Hne.
  destruct (add_product_inserted cfg ev rq w)
    as [?|(uid & nm & cat & ps & qs & ds & price & qty & f & d' & Hlog & Hfarm
           & _ & (H1 & H2 & H3 & H4 & H5) & Hpf & Hpi & _ & Hps & _ & ->)];
    [done|].
  exists uid; eexists; exists price, qty.
  rewrite H1, H2, H3, H4, H5. simpl. unfold product_doc.
  split_and!; try done.
Qed.

Lemma X11_product_record_witness :
  let rq := Sample.post {[ "name" := "Apples"; "category" := "fruit";
                           "price" := "12.5"; "quantity" := "10";
                           "description" := "Fresh"; "is_organic" := "on" ]}
              {[ "image" := {| filename := "apple.png"; content := "PNG" |} ]} in
  let res := @add_product Sample.werkzeug Sample.builtins Sample.cfg Sample.ev rq
               Sample.bob_world in
  products res.2 ≠ products Sample.bob_world ∧
  ∃ d', products res.2 = products Sample.bob_world ++ [d'] ∧
        d' !! "is_organic" = Some (VBool true).
Proof.
  intros rq res.
  assert (products res.2 ≠ products Sample.bob_world) as Hne by compute_done.
  split; [exact Hne|].
  destruct (@X11_product_record Sample.werkzeug Sample.builtins Sample.cfg
              Sample.ev rq Sample.bob_world Hne)
    as (uid & d' & price & qty & _ & _ & Hps & _ & _ & _ & _ & _ & _ & _ & _
        & Horg & _).
  exists d'. split; [exact Hps|].
  assert (has_key (form rq) "is_organic" = true) as Hk by compute_done.
  rewrite Hk in Horg. exact Horg.
Defined.

Lemma X12_add_product_needs_upload_folder_witness :
  let w := with_fs {| dirs := ∅; files := ∅ |} Sample.bob_world in
  let rq := Sample.post {[ "name" := "Apples"; "category" := "fruit";
                           "price" := "12.5"; "quantity" := "10";
                           "description" := "Fresh" ]}
              {[ "image" := Sample.png ]} in
  (logged_in w Sample.bob_id ∧ farmer_session w ∧
   UPLOAD_FOLDER Sample.cfg ∉ dirs (fs w)) ∧
  products (@add_product Sample.werkzeug Sample.builtins Sample.cfg Sample.ev
              rq w).2 = products w.
Proof.
  intros w rq.
  assert (logged_in w Sample.bob_id) as Hlog.
  { exists (VStr Sample.bob_id). split; [compute_done | reflexivity]. }
  assert (farmer_session w) as Hfarm by (unfold farmer_session; compute_done).
  assert (UPLOAD_FOLDER Sample.cfg ∉ dirs (fs w)) as Hdir by compute_done.
  split; [by split_and!|].
  rewrite (@X12_add_product_needs_upload_folder Sample.werkzeug Sample.builtins
             Sample.cfg Sample.ev rq w Sample.bob_id
             "Apples" "fruit" "12.5" "10" "Fresh"
             {| float_bits := 0x4029000000000000 |} 10 Sample.png
             Hlog Hfarm eq_refl);
    [ reflexivity | unfold product_form; compute_done | reflexivity
    | reflexivity | compute_done | discriminate | compute_done | exact Hdir ].
Defined.

Section PictureFacts.
Context `{W : Werkzeug}.
Variables (cfg : config) (ev : env) (rq : request) (w : world).

Lemma update_profile_picture_unmatched uid f e :
  logged_in w uid →
  rfiles rq !! "profile_picture" = Some f → filename f ≠ "" →
  allowed_file (filename f) = true →
  PyStr.rsplit1 "." (secure_filename (filename f)) !! 1%nat = Some e →
  Mongo.find_one {[ "_id" := VOid uid ]} (users w) = None →
  let path :=
    os_path_join (UPLOAD_FOLDER cfg)
      ("profile_" +:+ uid +:+ "_" +:+ Strftime.compact (now ev) +:+ "."
         +:+ PyStr.lower e) in
  update_profile_picture cfg ev rq w =
    (Ok (Redirect "profile"),
     with_flashed (flashed w ++ [("Failed to update profile picture", "error")])
       (with_fs {| dirs := {[ UPLOAD_FOLDER cfg ]} ∪ dirs (fs w);
                   files := <[path := (content f, 420%nat)]>
                              (<[path := (content f, 420%nat)]> (files (fs w))) |}
          w)).
Proof.
  intros (v & Hs & Hp) Hf Hne Ha He Hnone path. subst path.
  unfold update_profile_picture, Os.makedirs, Os.save, Os.chmod. run.
  rewrite (validate_logged_in _ _ _ Hs Hp). cbn beta iota. rewrite Hf.
  apply String.eqb_neq in Hne. rewrite Hne, Ha. cbn [negb]. cbn beta iota.
  rewrite He. wsimpl. rewrite bool_decide_eq_true_2 by set_solver.
  wsimpl. rewrite lookup_insert_eq. wsimpl.
  rewrite (update_one_no_match _ _ _ Hnone). wsimpl. simpl Nat.eqb.
  by destruct w.
Qed.
End PictureFacts.

(** X13.  When the session's user has no record, a valid profile-picture
    upload still writes the file into the upload folder, and then reports
    "Failed to update profile picture" because no record was modified; the
    users collection is unchanged. *)
Theorem X13_orphan_profile_picture `{W : Werkzeug} (cfg : config) (ev : env)
    (rq : request) (w : world) (uid : ObjectId) (f : upload) (e : string) :
  logged_in w uid →
  rfiles rq !! "profile_picture" = Some f → filename f ≠ "" →
  allowed_file (filename f) = true →
  PyStr.rsplit1 "." (secure_filename (filename f)) !! 1%nat = Some e →
  Mongo.find_one {[ "_id" := VOid uid ]} (users w) = None →
  let res := update_profile_picture cfg ev rq w in
  res.1 = Ok (Redirect "profile") ∧
  flashed res.2 = flashed w ++ [("Failed to update profile picture", "error")] ∧
  users res.2 = users w ∧
  files (fs res.2)
    !! os_path_join (UPLOAD_FOLDER cfg)
         ("profile_" +:+ uid +:+ "_" +:+ Strftime.compact (now ev) +:+ "."
            +:+ PyStr.lower e)
    = Some (content f, 420%nat).
Proof.
  intros Hlog Hf Hne Ha He Hnone res. subst res.
  rewrite (update_profile_picture_unmatched cfg ev rq w uid f e) by done.
  wsimpl. split_and!; try done. apply lookup_insert_eq.
Qed.

Lemma X13_orphan_profile_picture_witness :
  let w := with_users [] Sample.bob_world in
  let rq := Sample.post ∅ {[ "profile_picture" := Sample.png ]} in
  (logged_in w Sample.bob_id ∧
   Mongo.find_one {[ "_id" := VOid Sample.bob_id ]} (users w) = None) ∧
  flashed (@update_profile_picture Sample.werkzeug Sample.cfg Sample.ev rq w).2
    = flashed w ++ [("Failed to update profile picture", "error")].
Proof.
  intros w rq.
  assert (logged_in w Sample.bob_id) as Hlog.
  { exists (VStr Sample.bob_id). split; [compute_done | reflexivity]. }
  assert (Mongo.find_one {[ "_id" := VOid Sample.bob_id ]} (users w) = None)
    as Hnone by reflexivity.
  split; [by split|].
  destruct (@X13_orphan_profile_picture Sample.werkzeug Sample.cfg Sample.ev rq
              w Sample.bob_id Sample.png "png" Hlog)
    as (_ & Hfl & _);
    [ compute_done | discriminate | compute_done | compute_done | exact Hnone
    | exact Hfl ].
Defined.

Ltac keeps_handler :=
  unfold index, register, login, logout, dashboard, product_list,
         product_detail, add_product, update_profile, update_profile_picture,
         update_social_links, change_password, profile;
  keeps_tac;
  first [ by apply keeps_validate | by apply keeps_makedirs
        | by apply keeps_save | by apply keeps_chmod
        | apply resolve_image_keeps ].

Section StoreFrames.
Context `{W : Werkzeug} `{B : Builtins}.
Variables (cfg : config) (ev : env) (rq : request).

Lemma keeps_orders_all r : keeps orders (handle cfg ev rq r).
Proof.
  unfold handle. case_bool_decide; [|done]. apply keeps_fmap.
  destruct r; keeps_handler.
Qed.

Lemma keeps_products_others r :
  r ≠ RAddProduct → keeps products (handle cfg ev rq r).
Proof.
  intros Hr. unfold handle. case_bool_decide; [|done]. apply keeps_fmap.
  destruct r; try done; keeps_handler.
Qed.

Lemma keeps_fs_readers r :
  r ∉ [RRegister; RAddProduct; RUpdateProfilePicture] →
  keeps fs (handle cfg ev rq r).
Proof.
  intros Hr. unfold handle. case_bool_decide; [|done]. apply keeps_fmap.
  destruct r; try (exfalso; set_solver); keeps_handler.
Qed.

Lemma add_product_not_post w :
  method rq ≠ "POST" → store_unchanged w (add_product cfg ev rq w).2.
Proof.
  intros Hm%String.eqb_neq. unfold add_product.
  use_validate w; [|done]. destruct (eq_str _ _); [|done]. by rewrite Hm.
Qed.

Lemma register_not_post w :
  method rq ≠ "POST" → (register cfg ev rq w).2 = w.
Proof. intros Hm%String.eqb_neq. unfold register. by rewrite Hm. Qed.
End StoreFrames.

(** X14.  No route ever writes the orders collection, and the products
    collection changes only through [add_product], which appends exactly one
    record: there is no update or delete path for products. *)
Theorem X14_products_append_only `{W : Werkzeug} `{B : Builtins}
    (cfg : config) (ev : env) (rq : request) (r : route) (w : world) :
  let w' := (handle cfg ev rq r w).2 in
  orders w' = orders w ∧
  (products w' = products w ∨
   r = RAddProduct ∧ ∃ d', products w' = products w ++ [d']).
Proof.
  intros w'. subst w'. split; [apply keeps_orders_all|].
  destruct (decide (r = RAddProduct)) as [->|Hr];
    [|left; by apply keeps_products_others].
  unfold handle. case_bool_decide; [|by left]. rewrite fmap_snd.
  destruct (add_product_inserted cfg ev rq w)
    as [?|(uid & nm & cat & ps & qs & ds & price & qty & f & d' & _ & _ & _ & _
           & _ & _ & _ & Hps & _)]; [by left|right].
  split; [done|]. by exists d'.
Qed.

(** X15.  A request whose method is not POST changes neither the users, the
    products or the orders collection nor the filesystem, whatever route it
    asks for. *)
Theorem X15_only_post_writes `{W : Werkzeug} `{B : Builtins}
    (cfg : config) (ev : env) (rq : request) (r : route) (w : world) :
  method rq ≠ "POST" →
  store_unchanged w (handle cfg ev rq r w).2.
Proof.
  intros Hm.
  destruct (decide (r ∈ [RRegister; RAddProduct; RUpdateProfilePicture]))
    as [Hr|Hr].
  - unfold handle. case_bool_decide as Hin; [|done]. rewrite fmap_snd.
    destruct r; try (exfalso; set_solver).
    + by rewrite register_not_post.
    + by apply add_product_not_post.
  - unfold store_unchanged. split_and!.
    + unfold handle. case_bool_decide as Hin; [|done]. rewrite fmap_snd.
      destruct r; try (exfalso; set_solver);
        try (exfalso; simpl in Hin; set_solver).
      * done.
      * apply (login_keeps_users rq).
      * apply logout_keeps_users.
      * apply dashboard_keeps_users.
      * done.
      * apply product_detail_keeps_users.
      * apply profile_keeps_users.
    + apply keeps_products_others. set_solver.
    + apply keeps_orders_all.
    + by apply keeps_fs_readers.
Qed.

Lemma X15_only_post_writes_witness :
  let rq := {| method := "GET"; form := Sample.alice_form; args := ∅;
               rfiles := {[ "profile_picture" := Sample.png ]} |} in
  method rq ≠ "POST" ∧
  users (@handle Sample.werkzeug Sample.builtins Sample.cfg Sample.ev rq
           RRegister Sample.bob_world).2 = users Sample.bob_world.
Proof.
  intros rq. assert (method rq ≠ "POST") as Hm by discriminate.
  split; [exact Hm|].
  destruct (@X15_only_post_writes Sample.werkzeug Sample.builtins Sample.cfg
              Sample.ev rq RRegister Sample.bob_world Hm) as (Hu & _).
  exact Hu.
Defined.

Section RecordsKept.
Context `{W : Werkzeug} `{B : Builtins}.
Variables (cfg : config) (ev : env) (rq : request) (w : world).

Lemma records_kept_refl ks us us' : us' = us → records_kept ks us us'.
Proof. intros -> i d Hi. eauto. Qed.

Lemma records_kept_update ks q upd us :
  (∀ k, k ∈ ks → upd !! k = None) →
  records_kept ks us (Mongo.update_one q upd us).1.
Proof.
  intros Hupd i d Hi.
  destruct (update_one_lookup q upd us i d Hi) as (d' & Hd' & [->|[-> _]]);
    [eauto|].
  eexists. split; [done|]. intros k Hk. by rewrite apply_set_lookup, Hupd.
Qed.

Lemma records_kept_app ks us d' : records_kept ks us (us ++ [d']).
Proof.
  intros i d Hi. exists d. split; [|done]. by apply lookup_app_l_Some.
Qed.

Lemma handle_records_kept r :
  records_kept immutable_fields (users w) (users (handle cfg ev rq r w).2).
Proof.
  unfold handle. case_bool_decide; [|by apply records_kept_refl].
  rewrite fmap_snd. unfold immutable_fields.
  destruct r.
  - by apply records_kept_refl.
  - destruct (register_cases cfg ev rq w)
      as [[-> _]|(f & e & p & ut & us & _ & _ & _ & _ & _ & _ & Hins & Hrun)];
      [by apply records_kept_refl|].
    cbv zeta in Hins, Hrun. rewrite Hrun. wsimpl.
    destruct (insert_one_inv _ _ _ _ Hins) as (d' & -> & _).
    apply records_kept_app.
  - apply records_kept_refl, (login_keeps_users rq).
  - apply records_kept_refl, logout_keeps_users.
  - apply records_kept_refl, dashboard_keeps_users.
  - by apply records_kept_refl.
  - apply records_kept_refl, product_detail_keeps_users.
  - apply records_kept_refl, add_product_keeps_users.
  - destruct (update_profile_users rq w) as [->|[uid ->]];
      [by apply records_kept_refl|].
    apply records_kept_update. intros k Hk.
    destruct (filter _ _ !! k) as [v|] eqn:Hv; [|done].
    apply update_profile_data_lookup in Hv as [->|[Hin _]];
      unfold general_keys in *; set_solver.
  - destruct (update_profile_picture_cases cfg ev rq w)
      as [->|(uid & f & e & _ & _ & _ & Hus & _)];
      [by apply records_kept_refl|].
    cbv zeta in Hus. rewrite Hus. apply records_kept_update.
    intros k Hk. apply lookup_singleton_ne. set_solver.
  - destruct (update_social_links_users rq w) as [->|[uid ->]];
      [by apply records_kept_refl|].
    apply records_kept_update.
    intros k Hk. apply lookup_singleton_ne. set_solver.
  - destruct (change_password_users ev rq w)
      as [->|(v & uid & cur & new & u & h & _ & _ & _ & _ & _ & _ & _ & _ & ->)];
      [by apply records_kept_refl|].
    apply records_kept_update.
    intros k Hk. apply lookup_singleton_ne. set_solver.
  - apply records_kept_refl, profile_keeps_users.
Qed.
End RecordsKept.

(** X16.  No route deletes or reorders a user record, and the identifier,
    the role and the creation time of a stored user survive every request
    unchanged. *)
Theorem X16_user_identity_stable `{W : Werkzeug} `{B : Builtins}
    (cfg : config) (ev : env) (rq : request) (r : route) (w : world)
    (i : nat) (d : doc) :
  users w !! i = Some d →
  ∃ d', users (handle cfg ev rq r w).2 !! i = Some d' ∧
        d' !! "_id" = d !! "_id" ∧
        d' !! "user_type" = d !! "user_type" ∧
        d' !! "created_at" = d !! "created_at".
Proof.
  intros Hi.
  destruct (handle_records_kept cfg ev rq w r i d Hi) as (d' & Hd' & Hk).
  exists d'. unfold immutable_fields in Hk.
  split_and!; [done|apply Hk; set_solver..].
Qed.

Lemma X16_user_identity_stable_witness :
  let rq := Sample.post {[ "name" := "Robert"; "user_type" := "customer" ]} ∅ in
  users Sample.bob_world !! 0%nat = Some Sample.bob ∧
  ∃ d', users (@handle Sample.werkzeug Sample.builtins Sample.cfg Sample.ev rq
                 RUpdateProfile Sample.bob_world).2 !! 0%nat = Some d' ∧
        d' !! "user_type" = Sample.bob !! "user_type".
Proof.
  intros rq. split; [reflexivity|].
  destruct (@X16_user_identity_stable Sample.werkzeug Sample.builtins Sample.cfg
              Sample.ev rq RUpdateProfile Sample.bob_world 0 Sample.bob eq_refl)
    as (d' & Hd' & _ & Hty & _).
  exists d'. split; [exact Hd' | exact Hty].
Defined.

Lemma elem_of_find_singleton k v coll (p : doc) :
  p ∈ Mongo.find {[ k := v ]} coll ↔ p ∈ coll ∧ p !! k = Some v.
Proof.
  rewrite find_singleton, !list_elem_of_In, filter_In.
  by rewrite bool_decide_eq_true.
Qed.

Section DashboardFacts.
Variable w : world.

Lemma dashboard_view uid t :
  logged_in w uid → session w !! "user_type" = Some t →
  dashboard w =
    (Ok (if eq_str t "farmer"
         then Render "farmers/dashboard.html"
                [("products",
                  CDocs (Mongo.find {[ "farmer_id" := VOid uid ]} (products w)));
                 ("orders",
                  CDocs (Mongo.find {[ "farmer_id" := VOid uid ]} (orders w)))]
         else Render "customers/dashboard.html"
                [("orders",
                  CDocs (Mongo.find {[ "customer_id" := VOid uid ]} (orders w)))]),
     w).
Proof.
  intros (v & Hs & Hp) Ht. unfold dashboard. run.
  rewrite (validate_logged_in _ _ _ Hs Hp). cbn beta iota. rewrite Ht.
  cbn beta iota. by destruct (eq_str t "farmer").
Qed.
End DashboardFacts.

(** X17.  The dashboard of a logged-in user lists only that user's own
    items: in a farmer session every listed product and order has the user
    as [farmer_id], and every product of the user is listed; in any other
    session every listed order has the user as [customer_id].  The world is
    not changed. *)
Theorem X17_dashboard_own_items (w : world) (uid : ObjectId) (t : value) :
  logged_in w uid → session w !! "user_type" = Some t →
  ∃ tpl ctx,
    dashboard w = (Ok (Render tpl ctx), w) ∧
    (∀ name l p, (name, CDocs l) ∈ ctx → p ∈ l →
       p !! (if eq_str t "farmer" then "farmer_id" else "customer_id")
         = Some (VOid uid)) ∧
    (eq_str t "farmer" = true →
     ∀ p, p ∈ products w → p !! "farmer_id" = Some (VOid uid) →
          ∃ l, ("products", CDocs l) ∈ ctx ∧ p ∈ l).
Proof.
  intros Hlog Ht. rewrite (dashboard_view w uid t Hlog Ht).
  destruct (eq_str t "farmer"); eexists _, _; (split; [reflexivity|]); split.
  - intros name l p Hin Hp.
    apply elem_of_cons in Hin as [[= -> ->]|Hin];
      [by apply elem_of_find_singleton in Hp as [_ ?]|].
    apply list_elem_of_singleton in Hin as [= -> ->].
    by apply elem_of_find_singleton in Hp as [_ ?].
  - intros _ p Hp Hf. eexists. split; [apply elem_of_cons; by left|].
    by apply elem_of_find_singleton.
  - intros name l p Hin Hp.
    apply list_elem_of_singleton in Hin as [= -> ->].
    by apply elem_of_find_singleton in Hp as [_ ?].
  - done.
Qed.

Lemma X17_dashboard_own_items_witness :
  let w := with_products
             [ {[ "name" := VStr "Apples"; "farmer_id" := VOid Sample.bob_id ]};
               {[ "name" := VStr "Pears";
                  "farmer_id" := VOid "65f0a1b2c3d4e5f6000000c0" ]} ]
             Sample.bob_world in
  (logged_in w Sample.bob_id ∧ session w !! "user_type" = Some (VStr "farmer")) ∧
  ∃ tpl ctx, dashboard w = (Ok (Render tpl ctx), w) ∧
    ∀ name l p, (name, CDocs l) ∈ ctx → p ∈ l →
      p !! "farmer_id" = Some (VOid Sample.bob_id).
Proof.
  intros w.
  assert (logged_in w Sample.bob_id) as Hlog.
  { exists (VStr Sample.bob_id). split; [compute_done | reflexivity]. }
  assert (session w !! "user_type" = Some (VStr "farmer")) as Ht by compute_done.
  split; [by split|].
  destruct (X17_dashboard_own_items w Sample.bob_id (VStr "farmer") Hlog Ht)
    as (tpl & ctx & Hrun & Hown & _).
  exists tpl, ctx. split; [exact Hrun | exact Hown].
Defined.

Section ProfileView.
Context `{B : Builtins}.
Variables (cfg : config) (w : world).

Lemma setdefault_is_Some k v (d : doc) : is_Some (setdefault k v d !! k).
Proof.
  unfold setdefault. destruct (d !! k) eqn:Hd; [by rewrite Hd|].
  rewrite lookup_insert_eq. eauto.
Qed.

Lemma setdefault_lookup_Some k v (d : doc) k' x :
  d !! k' = Some x → setdefault k v d !! k' = Some x.
Proof.
  intros Hx. unfold setdefault. destruct (d !! k) eqn:Hd; [done|].
  rewrite lookup_insert_ne; [done|]. intros ->. congruence.
Qed.

Lemma project_lookup_None fields (d : doc) k :
  k ≠ "_id" → k ∉ fields → Mongo.project fields d !! k = None.
Proof.
  intros Hk Hn. unfold Mongo.project. apply map_lookup_filter_None.
  right. intros x _ [?|?]; simpl in *; done.
Qed.

Lemma resolve_image_ok (u user : doc) w' :
  resolve_image cfg u w = (Ok user, w') →
  w' = w ∧ is_Some (user !! "image_url") ∧
  ∀ k, k ≠ "image_url" → user !! k = u !! k.
Proof.
  unfold resolve_image, default_image. run.
  destruct (negb _).
  - destruct (DEFAULT_IMAGES cfg !! _); [|done]. cbn beta iota.
    intros [= <- <-]. split_and!; [done|rewrite lookup_insert_eq; eauto|].
    intros k Hk. by rewrite lookup_insert_ne.
  - destruct (u !! "image_url") as [i|] eqn:Hi; [|done]. cbn beta iota.
    destruct i; try done. cbn beta iota.
    destruct (negb _).
    + destruct (DEFAULT_IMAGES cfg !! _); [|done]. cbn beta iota.
      intros [= <- <-]. split_and!; [done|rewrite lookup_insert_eq; eauto|].
      intros k Hk. by rewrite lookup_insert_ne.
    + intros [= <- <-]. split_and!; [done|by rewrite Hi|done].
Qed.

Lemma resolve_image_unconfigured (u : doc) :
  image_missing cfg w u → DEFAULT_IMAGES cfg !! default_key u = None →
  resolve_image cfg u w = (Raise KeyError, w).
Proof.
  intros Hmiss Hnone. unfold resolve_image, default_image. run.
  fold (default_key u). rewrite Hnone.
  destruct Hmiss as [Hfalsy|(url & Hurl & Hne & Hex)].
  - by rewrite Hfalsy.
  - rewrite Hurl. destruct url; [done|].
    cbn [default from_option id truthy PyStr.nonempty negb]. by rewrite Hex.
Qed.

(** X19.  When the session's user has no record any more, the profile view
    empties the session, flashes "Account not found" and redirects to the
    registration page. *)
Theorem X19_profile_of_deleted_account uid :
  logged_in w uid →
  Mongo.find_one {[ "_id" := VOid uid ]} (users w) = None →
  profile cfg w =
    (Ok (Redirect "register"),
     with_flashed (flashed w ++ [("Account not found", "error")])
       (with_session ∅ w)).
Proof.
  intros (v & Hs & Hp) Hnone. unfold profile. run.
  rewrite (validate_logged_in _ _ _ Hs Hp). cbn beta iota. by rewrite Hnone.
Qed.
End ProfileView.

(** X18.  For a logged-in user with a record, the profile view either takes
    its error path or renders a record that never holds the password hash or
    the creation time, holds the identifier as text, always holds
    [location], [social_links], [description] and [image_url], and holds
    every projected field of the stored record, [image_url] apart, with its
    stored value; the world is unchanged. *)
Theorem X18_profile_projection `{B : Builtins} (cfg : config) (w : world)
    (uid : ObjectId) (d : doc) :
  logged_in w uid →
  Mongo.find_one {[ "_id" := VOid uid ]} (users w) = Some d →
  (profile cfg w).1 = Ok (Redirect "dashboard") ∨
  ∃ tpl user,
    profile cfg w = (Ok (Render tpl [("user", CDoc (Some user))]), w) ∧
    user !! "password" = None ∧ user !! "created_at" = None ∧
    user !! "_id" = Some (VStr uid) ∧
    is_Some (user !! "location") ∧ is_Some (user !! "social_links") ∧
    is_Some (user !! "description") ∧ is_Some (user !! "image_url") ∧
    (∀ k v, k ∈ profile_fields → d !! k = Some v → user !! k = Some v).
Proof.
  intros (v & Hs & Hp) Hd.
  rewrite (profile_found cfg w v uid d Hs Hp Hd).
  destruct (resolve_image cfg (profile_record d (VOid uid)) w)
    as [[u|e] w''] eqn:Hres; [right|by left].
  apply resolve_image_ok in Hres as (-> & Himg & Hsame).
  exists (profile_template u), u.
  assert (∀ k, k ∉ ["description"; "social_links"; "location"; "_id"] →
               profile_record d (VOid uid) !! k
               = Mongo.project profile_projection d !! k) as Hrec.
  { intros k Hk. unfold profile_record.
    rewrite !setdefault_lookup_ne by set_solver.
    rewrite lookup_insert_ne by set_solver. done. }
  assert (∀ k, k ≠ "image_url" → is_Some (profile_record d (VOid uid) !! k) →
               is_Some (u !! k)) as Hsome.
  { intros k Hk. by rewrite Hsame. }
  split_and!; try done.
  - rewrite Hsame, Hrec by set_solver.
    apply project_lookup_None; [done|]. unfold profile_projection. set_solver.
  - rewrite Hsame, Hrec by set_solver.
    apply project_lookup_None; [done|]. unfold profile_projection. set_solver.
  - rewrite Hsame by done. unfold profile_record.
    do 3 apply setdefault_lookup_Some. apply lookup_insert_eq.
  - apply Hsome; [done|]. unfold profile_record.
    destruct (setdefault_is_Some "location"
                (VDoc {[ "address" := Some ""; "city" := Some "";
                         "state" := Some ""; "zipcode" := Some "" ]})
                (<["_id" := VStr (py_str (VOid uid))]>
                   (Mongo.project profile_projection d))) as [x Hx].
    exists x. by do 2 apply setdefault_lookup_Some.
  - apply Hsome; [done|]. unfold profile_record.
    match goal with
    | |- is_Some (setdefault _ _ (setdefault ?k ?v ?m) !! _) =>
        destruct (setdefault_is_Some k v m) as [x Hx]
    end.
    exists x. by apply setdefault_lookup_Some.
  - apply Hsome; [done|]. apply setdefault_is_Some.
  - intros k x Hk Hx. unfold profile_fields in Hk.
    rewrite Hsame by set_solver. unfold profile_record.
    do 3 apply setdefault_lookup_Some.
    rewrite lookup_insert_ne by set_solver.
    rewrite project_lookup; [done|]. right. unfold profile_projection.
    set_solver.
Qed.

Lemma X18_profile_projection_witness :
  let w := Sample.bob_world in
  (logged_in w Sample.bob_id ∧
   Mongo.find_one {[ "_id" := VOid Sample.bob_id ]} (users w) = Some Sample.bob) ∧
  ∃ tpl user,
    @profile Sample.builtins Sample.cfg w
      = (Ok (Render tpl [("user", CDoc (Some user))]), w) ∧
    user !! "password" = None.
Proof.
  intros w.
  assert (logged_in w Sample.bob_id) as Hlog.
  { exists (VStr Sample.bob_id). split; [compute_done | reflexivity]. }
  assert (Mongo.find_one {[ "_id" := VOid Sample.bob_id ]} (users w)
            = Some Sample.bob) as Hd by compute_done.
  split; [by split|].
  destruct (@X18_profile_projection Sample.builtins Sample.cfg w
              Sample.bob_id Sample.bob Hlog Hd)
    as [Herr|(tpl & user & Hrun & Hpw & _)].
  - vm_compute in Herr. discriminate Herr.
  - exists tpl, user. split; [exact Hrun | exact Hpw].
Defined.

Lemma X19_profile_of_deleted_account_witness :
  let w := with_users [] Sample.bob_world in
  logged_in w Sample.bob_id ∧
  session (@profile Sample.builtins Sample.cfg w).2 = ∅.
Proof.
  intros w.
  assert (logged_in w Sample.bob_id) as Hlog.
  { exists (VStr Sample.bob_id). split; [compute_done | reflexivity]. }
  split; [exact Hlog|].
  by rewrite (@X19_profile_of_deleted_account Sample.builtins Sample.cfg w
                Sample.bob_id Hlog eq_refl).
Defined.

(** X20.  When the stored image has to be replaced and the configuration
    holds no placeholder for the user's role, the profile view fails into
    its generic error path: "Failed to load profile. Please try again." and
    a redirect to the dashboard, with nothing else changed. *)
Theorem X20_profile_without_placeholder `{B : Builtins} (cfg : config)
    (w : world) (uid : ObjectId) (d : doc) :
  logged_in w uid →
  Mongo.find_one {[ "_id" := VOid uid ]} (users w) = Some d →
  image_missing cfg w d →
  DEFAULT_IMAGES cfg !! default_key d = None →
  profile cfg w =
    (Ok (Redirect "dashboard"),
     with_flashed
       (flashed w ++ [("Failed to load profile. Please try again.", "error")]) w).
Proof.
  intros (v & Hs & Hp) Hd Hmiss Hnone.
  rewrite (profile_found cfg w v uid d Hs Hp Hd).
  assert (profile_record d (VOid uid) !! "image_url" = d !! "image_url") as Himg
    by (apply profile_record_lookup; set_solver).
  assert (profile_record d (VOid uid) !! "user_type" = d !! "user_type") as Hty
    by (apply profile_record_lookup; set_solver).
  rewrite (resolve_image_unconfigured cfg w); [done| |].
  - unfold image_missing. by rewrite Himg.
  - unfold default_key. by rewrite Hty.
Qed.

Lemma X20_profile_without_placeholder_witness :
  let cfg := {| basedir := "/srv/market"; DEFAULT_IMAGES := ∅ |} in
  let w := with_fs {| dirs := ∅; files := ∅ |} Sample.bob_world in
  (logged_in w Sample.bob_id ∧ image_missing cfg w Sample.bob) ∧
  (@profile Sample.builtins cfg w).1 = Ok (Redirect "dashboard").
Proof.
  intros cfg w.
  assert (logged_in w Sample.bob_id) as Hlog.
  { exists (VStr Sample.bob_id). split; [compute_done | reflexivity]. }
  assert (image_missing cfg w Sample.bob) as Hmiss.
  { right. exists "uploads/user_20240101000000.png".
    split_and!; [compute_done | discriminate | compute_done]. }
  split; [by split|].
  rewrite (@X20_profile_without_placeholder Sample.builtins cfg w Sample.bob_id
             Sample.bob Hlog); [reflexivity | compute_done | exact Hmiss
                                | reflexivity].
Defined.

Lemma logged_in_dec w : (∃ uid, logged_in w uid) ∨ (∀ uid, ¬ logged_in w uid).
Proof.
  unfold logged_in. destruct (session w !! "user_id") as [v|] eqn:Hs.
  - destruct (Bson.parse v) as [uid|e] eqn:Hp; [left; eauto|].
    right. intros uid (v' & [= <-] & Hp'). congruence.
  - right. intros uid (v' & [=] & _).
Qed.

Lemma update_one_idem q upd coll :
  (∀ d, Mongo.matches q d = true → Mongo.matches q (Mongo.apply_set upd d) = true) →
  (Mongo.update_one q upd (Mongo.update_one q upd coll).1).1
    = (Mongo.update_one q upd coll).1.
Proof.
  intros Hq. induction coll as [|d r IH]; [done|]. simpl.
  destruct (Mongo.matches q d) eqn:Hm; simpl.
  - rewrite (Hq d Hm). simpl. f_equal. unfold Mongo.apply_set.
    by rewrite (assoc_L (∪)), (idemp_L (∪)).
  - destruct (Mongo.update_one q upd r) as [r' n] eqn:Hr. simpl in *.
    rewrite Hm. destruct (Mongo.update_one q upd r') as [r'' n'] eqn:Hr'.
    simpl in *. by rewrite IH.
Qed.

Lemma matches_id_apply_set v upd d :
  upd !! "_id" = None →
  Mongo.matches {[ "_id" := v ]} d = true →
  Mongo.matches {[ "_id" := v ]} (Mongo.apply_set upd d) = true.
Proof.
  intros Hupd. rewrite !matches_singleton, !bool_decide_eq_true.
  by rewrite apply_set_lookup, Hupd.
Qed.

Lemma profile_update_lookup_id rq w : profile_update rq w !! "_id" = None.
Proof.
  unfold profile_update. destruct (filter _ _ !! "_id") as [v|] eqn:Hv; [|done].
  apply update_profile_data_lookup in Hv as [?|[Hin _]]; [done|].
  unfold general_keys in Hin. set_solver.
Qed.

Section UpdateRuns.
Variables (rq : request) (w : world).

Lemma update_profile_run uid :
  logged_in w uid →
  update_profile rq w =
    (Ok (Redirect "profile"),
     with_flashed (flashed w ++ [("Profile updated successfully!", "success")])
       (with_users
          (Mongo.update_one {[ "_id" := VOid uid ]} (profile_update rq w)
             (users w)).1 w)).
Proof.
  intros (v & Hs & Hp). unfold update_profile. run.
  by rewrite (validate_logged_in _ _ _ Hs Hp).
Qed.

Lemma update_profile_unauth :
  (∀ uid, ¬ logged_in w uid) →
  ∃ s, update_profile rq w =
         (Ok (Redirect "login"),
          with_flashed (flashed w ++ [("Please login first", "warning")])
            (with_session s w)) ∧
       s !! "user_id" = None.
Proof.
  intros Hno. destruct (validate_not_logged_in w Hno) as (s & Hv & Hs).
  exists s. split.
  - unfold update_profile. run. by rewrite Hv.
  - destruct Hs as [[-> ?]|[-> _]]; done.
Qed.

Lemma update_social_links_run uid :
  logged_in w uid →
  update_social_links rq w =
    (Ok (Redirect "profile"),
     with_flashed (flashed w ++ [("Social links updated!", "success")])
       (with_users
          (Mongo.update_one {[ "_id" := VOid uid ]}
             {[ "social_links" := VDoc (social_links_data rq) ]} (users w)).1 w)).
Proof.
  intros (v & Hs & Hp). unfold update_social_links. run.
  by rewrite (validate_logged_in _ _ _ Hs Hp).
Qed.

Lemma update_social_links_unauth :
  (∀ uid, ¬ logged_in w uid) →
  ∃ s, update_social_links rq w = (Ok (Redirect "login"), with_session s w) ∧
       s !! "user_id" = None.
Proof.
  intros Hno. destruct (validate_not_logged_in w Hno) as (s & Hv & Hs).
  exists s. split.
  - unfold update_social_links. run. by rewrite Hv.
  - destruct Hs as [[-> ?]|[-> _]]; done.
Qed.
End UpdateRuns.

Lemma logged_in_same_session w w' uid :
  session w' = session w → logged_in w uid → logged_in w' uid.
Proof. intros Hs (v & Hv & Hp). exists v. by rewrite Hs. Qed.

Lemma not_logged_in_without_id w :
  session w !! "user_id" = None → ∀ uid, ¬ logged_in w uid.
Proof. intros Hs uid (v & Hv & _). congruence. Qed.

(** X21.  Submitting the same profile form, or the same social-links form,
    twice leaves the users collection as the first submission left it. *)
Theorem X21_profile_updates_idempotent (rq : request) (w : world) :
  users (update_profile rq (update_profile rq w).2).2
    = users (update_profile rq w).2 ∧
  users (update_social_links rq (update_social_links rq w).2).2
    = users (update_social_links rq w).2.
Proof.
  split.
  - destruct (logged_in_dec w) as [[uid Hlog]|Hno].
    + rewrite (update_profile_run rq w uid Hlog).
      cbn [snd]. rewrite (update_profile_run rq _ uid)
        by (by apply (logged_in_same_session w)).
      cbn [snd users with_flashed with_users]. unfold profile_update at 1.
      cbn [session with_flashed with_users].
      fold (profile_update rq w). apply update_one_idem.
      intros d. apply matches_id_apply_set, profile_update_lookup_id.
    + destruct (update_profile_unauth rq w Hno) as (s & -> & Hs). cbn [snd].
      destruct (update_profile_unauth rq
                  (with_flashed (flashed w ++ [("Please login first", "warning")])
                     (with_session s w))) as (s' & -> & _); [|done].
      by apply not_logged_in_without_id.
  - destruct (logged_in_dec w) as [[uid Hlog]|Hno].
    + rewrite (update_social_links_run rq w uid Hlog).
      cbn [snd]. rewrite (update_social_links_run rq _ uid)
        by (by apply (logged_in_same_session w)).
      cbn [snd users with_flashed with_users]. apply update_one_idem.
      intros d. by apply matches_id_apply_set.
    + destruct (update_social_links_unauth rq w Hno) as (s & -> & Hs). cbn [snd].
      destruct (update_social_links_unauth rq (with_session s w))
        as (s' & -> & _); [|done].
      by apply not_logged_in_without_id.
Qed.

Lemma social_links_data_lookup rq k o :
  social_links_data rq !! k = Some o ↔
  k ∈ platforms ∧ ∃ s, o = Some s ∧ form rq !! k = Some s ∧ s ≠ "".
Proof.
  unfold social_links_data, platforms. rewrite map_lookup_filter_Some. simpl.
  assert (∀ x : option string,
            truthy (of_get x) = true ↔ ∃ s, x = Some s ∧ s ≠ "") as Htruthy.
  { intros [[|c s]|]; simpl; split; try done; try naive_solver. }
  split.
  - intros [Hk Ht]. apply Htruthy in Ht as (s & -> & Hne).
    split_key k "facebook"; [|split_key k "twitter"; [|split_key k "instagram";
      [|split_key k "youtube"]]]; lk Hk; try done;
      (split; [set_solver|]); injection Hk as Hk; eauto.
  - intros (Hk & s & -> & Hf & Hne). split; [|apply Htruthy; eauto].
    rewrite <- Hf.
    split_key k "facebook"; [|split_key k "twitter"; [|split_key k "instagram";
      [|split_key k "youtube"]]];
      rewrite ?lookup_insert_eq, ?lookup_insert_ne, ?lookup_singleton_eq by done;
      try done.
    exfalso. set_solver.
Qed.

(** X22.  After [update_social_links] by a logged-in user with a record, the
    record's [social_links] is exactly the mapping of the four platforms
    whose submitted link is non-empty; links stored before and not
    resubmitted are gone, other form keys are ignored, and every other
    field of the record is as it was. *)
Theorem X22_social_links_replaced (rq : request) (w : world) (uid : ObjectId)
    (u : doc) :
  logged_in w uid →
  Mongo.find_one {[ "_id" := VOid uid ]} (users w) = Some u →
  ∃ u' m,
    Mongo.find_one {[ "_id" := VOid uid ]} (users (update_social_links rq w).2)
      = Some u' ∧
    u' !! "social_links" = Some (VDoc m) ∧
    (∀ k o, m !! k = Some o ↔
            k ∈ platforms ∧ ∃ s, o = Some s ∧ form rq !! k = Some s ∧ s ≠ "") ∧
    (∀ k, k ≠ "social_links" → u' !! k = u !! k).
Proof.
  intros Hlog Hu. rewrite (update_social_links_run rq w uid Hlog).
  cbn [snd users with_flashed with_users].
  eexists _, (social_links_data rq). split_and!.
  - apply update_one_find_one; [done|].
    apply matches_id_apply_set; [done|]. by apply find_one_matches in Hu as [? _].
  - by rewrite apply_set_lookup, lookup_singleton_eq.
  - apply social_links_data_lookup.
  - intros k Hk. by rewrite apply_set_lookup, lookup_singleton_ne.
Qed.

Lemma X22_social_links_replaced_witness :
  let rq := Sample.post {[ "facebook" := "https://facebook.com/bob";
                           "youtube" := ""; "tiktok" := "https://tiktok.com/b" ]}
              ∅ in
  (logged_in Sample.bob_world Sample.bob_id ∧
   Mongo.find_one {[ "_id" := VOid Sample.bob_id ]} (users Sample.bob_world)
     = Some Sample.bob) ∧
  ∃ u' m,
    Mongo.find_one {[ "_id" := VOid Sample.bob_id ]}
      (users (update_social_links rq Sample.bob_world).2) = Some u' ∧
    u' !! "social_links" = Some (VDoc m) ∧ m !! "twitter" = None.
Proof.
  intros rq.
  assert (logged_in Sample.bob_world Sample.bob_id) as Hlog.
  { exists (VStr Sample.bob_id). split; [compute_done | reflexivity]. }
  assert (Mongo.find_one {[ "_id" := VOid Sample.bob_id ]}
            (users Sample.bob_world) = Some Sample.bob) as Hu by compute_done.
  split; [by split|].
  destruct (X22_social_links_replaced rq Sample.bob_world Sample.bob_id
              Sample.bob Hlog Hu) as (u' & m & Hf & Hs & Hm & _).
  exists u', m. split_and!; [exact Hf | exact Hs |].
  destruct (m !! "twitter") as [o|] eqn:Ht; [|reflexivity].
  apply Hm in Ht as (_ & s & _ & Hform & _).
  exfalso. revert Hform. compute_done.
Defined.

(** X23.  What [update_profile] does to a farm: in a farmer session the
    stored [location] is replaced as a whole by the four address values of
    the form, a value the form does not carry being stored as null; in any
    other session [location] and [farm_name] are left as they were,
    whatever the form carries. *)
Theorem X23_update_profile_location (rq : request) (w : world) (uid : ObjectId)
    (u : doc) :
  logged_in w uid →
  Mongo.find_one {[ "_id" := VOid uid ]} (users w) = Some u →
  ∃ u',
    Mongo.find_one {[ "_id" := VOid uid ]} (users (update_profile rq w).2)
      = Some u' ∧
    (farmer_session w →
     u' !! "location"
       = Some (VDoc {[ "address" := form rq !! "address";
                       "city" := form rq !! "city";
                       "state" := form rq !! "state";
                       "zipcode" := form rq !! "zipcode" ]})) ∧
    (¬ farmer_session w →
     u' !! "location" = u !! "location" ∧ u' !! "farm_name" = u !! "farm_name").
Proof.
  intros Hlog Hu. rewrite (update_profile_run rq w uid Hlog).
  cbn [snd users with_flashed with_users].
  eexists. split_and!.
  - apply update_one_find_one; [done|].
    apply matches_id_apply_set; [apply profile_update_lookup_id|].
    by apply find_one_matches in Hu as [? _].
  - unfold farmer_session. intros Hf. rewrite apply_set_lookup.
    unfold profile_update, update_profile_data. rewrite Hf.
    erewrite map_lookup_filter_Some_2; [done| |done].
    rewrite lookup_union, lookup_insert_ne, lookup_singleton_eq by done.
    by rewrite !lookup_insert_ne, lookup_singleton_ne by done.
  - unfold farmer_session. intros Hf%not_true_is_false.
    rewrite !apply_set_lookup.
    unfold profile_update, update_profile_data. rewrite Hf.
    rewrite !map_lookup_filter_None_2; [done| |]; left;
      by rewrite !lookup_insert_ne, lookup_singleton_ne by done.
Qed.

Lemma X23_update_profile_location_witness :
  let rq := Sample.post {[ "phone" := "555" ]} ∅ in
  (logged_in Sample.bob_world Sample.bob_id ∧ farmer_session Sample.bob_world ∧
   Mongo.find_one {[ "_id" := VOid Sample.bob_id ]} (users Sample.bob_world)
     = Some Sample.bob) ∧
  ∃ u',
    Mongo.find_one {[ "_id" := VOid Sample.bob_id ]}
      (users (update_profile rq Sample.bob_world).2) = Some u' ∧
    u' !! "location"
      = Some (VDoc {[ "address" := None; "city" := None;
                      "state" := None; "zipcode" := None ]}).
Proof.
  intros rq.
  assert (logged_in Sample.bob_world Sample.bob_id) as Hlog.
  { exists (VStr Sample.bob_id). split; [compute_done | reflexivity]. }
  assert (farmer_session Sample.bob_world) as Hfarm
    by (unfold farmer_session; compute_done).
  assert (Mongo.find_one {[ "_id" := VOid Sample.bob_id ]}
            (users Sample.bob_world) = Some Sample.bob) as Hu by compute_done.
  split; [by split_and!|].
  destruct (X23_update_profile_location rq Sample.bob_world Sample.bob_id
              Sample.bob Hlog Hu) as (u' & Hf & Hloc & _).
  exists u'. split; [exact Hf|]. rewrite (Hloc Hfarm). reflexivity.
Defined.

(** X24.  After a successful password change the stored hash is the hash of
    the new password, so the next change request is judged against it: it
    succeeds when the new hash accepts the submitted current password, and
    is refused with "Current password is incorrect" when it does not. *)
Theorem X24_changed_password_is_current `{W : Werkzeug} (ev ev2 : env)
    (rq rq2 : request) (w : world) (uid : ObjectId)
    (cur new cur2 new2 h : string) (u : doc) :
  logged_in w uid →
  form rq !! "current_password" = Some cur →
  form rq !! "new_password" = Some new →
  form rq !! "confirm_password" = Some new →
  Mongo.find_one {[ "_id" := VOid uid ]} (users w) = Some u →
  u !! "password" = Some (VStr h) → check_password_hash h cur = true →
  form rq2 !! "current_password" = Some cur2 →
  form rq2 !! "new_password" = Some new2 →
  form rq2 !! "confirm_password" = Some new2 →
  let w1 := (change_password ev rq w).2 in
  let hn := generate_password_hash (salt ev) new in
  (check_password_hash hn cur2 = true →
   flashed (change_password ev2 rq2 w1).2
     = flashed w1 ++ [("Password updated successfully!", "success")] ∧
   ∃ u2, Mongo.find_one {[ "_id" := VOid uid ]}
           (users (change_password ev2 rq2 w1).2) = Some u2 ∧
         u2 !! "password"
           = Some (VStr (generate_password_hash (salt ev2) new2))) ∧
  (check_password_hash hn cur2 = false →
   change_password ev2 rq2 w1 =
     (Ok (Redirect "profile"),
      with_flashed (flashed w1 ++ [("Current password is incorrect", "error")])
        w1)).
Proof.
  intros (v & Hs & Hp) Hc Hn Hf Hu Hh Hk Hc2 Hn2 Hf2 w1 hn.
  assert (w1 = with_flashed
                 (flashed w ++ [("Password updated successfully!", "success")])
                 (with_users (password_set ev w uid new) w)) as Hw1.
  { subst w1. by rewrite (change_password_success ev rq w v uid cur new u h). }
  assert (session w1 !! "user_id" = Some v) as Hs1 by (by rewrite Hw1).
  assert (∀ x, Mongo.matches {[ "_id" := VOid uid ]}
                 (Mongo.apply_set {[ "password" := VStr x ]} u) = true) as Hm.
  { intros x. apply matches_id_apply_set; [done|].
    by apply find_one_matches in Hu as [? _]. }
  assert (Mongo.find_one {[ "_id" := VOid uid ]} (users w1)
            = Some (Mongo.apply_set {[ "password" := VStr hn ]} u)) as Hu1.
  { rewrite Hw1. cbn [users with_flashed with_users]. unfold password_set.
    by apply update_one_find_one. }
  assert (Mongo.apply_set {[ "password" := VStr hn ]} u !! "password"
            = Some (VStr hn)) as Hh1
    by (by rewrite apply_set_lookup, lookup_singleton_eq).
  split.
  - intros Hok.
    rewrite (change_password_success ev2 rq2 w1 v uid cur2 new2 _ hn) by done.
    cbn [snd flashed users with_flashed with_users]. split; [done|].
    eexists. split.
    + unfold password_set. apply update_one_find_one; [done|].
      apply matches_id_apply_set; [done|].
      by apply find_one_matches in Hu1 as [? _].
    + by rewrite apply_set_lookup, lookup_singleton_eq.
  - intros Hbad.
    apply (change_password_incorrect ev2 rq2 w1 v uid cur2 new2); try done.
    right. eauto.
Qed.

Lemma X24_changed_password_is_current_witness :
  let rq := Sample.post {[ "current_password" := "hunter2";
                           "new_password" := "tr0ub4dor";
                           "confirm_password" := "tr0ub4dor" ]} ∅ in
  let rq2 := Sample.post {[ "current_password" := "hunter2";
                            "new_password" := "again";
                            "confirm_password" := "again" ]} ∅ in
  let w1 := (@change_password Sample.werkzeug Sample.ev rq Sample.bob_world).2 in
  (logged_in Sample.bob_world Sample.bob_id ∧
   Sample.check (Sample.hash "NaCl" "hunter2") "hunter2" = true ∧
   Sample.check (Sample.hash "NaCl" "tr0ub4dor") "hunter2" = false) ∧
  flashed (@change_password Sample.werkzeug Sample.ev rq2 w1).2
    = flashed w1 ++ [("Current password is incorrect", "error")].
Proof.
  intros rq rq2 w1.
  assert (logged_in Sample.bob_world Sample.bob_id) as Hlog.
  { exists (VStr Sample.bob_id). split; [compute_done | reflexivity]. }
  assert (Sample.check (Sample.hash "NaCl" "hunter2") "hunter2" = true ∧
          Sample.check (Sample.hash "NaCl" "tr0ub4dor") "hunter2" = false)
    as [Hok Hbad] by compute_done.
  split; [by split_and!|].
  destruct (@X24_changed_password_is_current Sample.werkzeug Sample.ev Sample.ev
              rq rq2 Sample.bob_world Sample.bob_id
              "hunter2" "tr0ub4dor" "hunter2" "again"
              (Sample.hash "NaCl" "hunter2") Sample.bob Hlog)
    as [_ Hrefused];
    [ compute_done | compute_done | compute_done | compute_done | compute_done
    | exact Hok | compute_done | compute_done | compute_done | ].
  fold w1 in Hrefused. by rewrite (Hrefused Hbad).
Defined.

(** X25.  The landing page shows the first eight products of the store and
    at most four users, each of them a stored user whose [user_type] is
    "farmer", and changes nothing. *)
Theorem X25_index_listing (w : world) :
  ∃ fp tf,
    index w =
      (Ok (Render "index.html"
             [("featured_products", CDocs fp); ("top_farmers", CDocs tf)]), w) ∧
    fp = take 8 (products w) ∧
    (length tf ≤ 4)%nat ∧
    (∀ u, u ∈ tf → u ∈ users w ∧ u !! "user_type" = Some (VStr "farmer")).
Proof.
  eexists _, _. split; [reflexivity|]. split_and!.
  - by rewrite find_empty.
  - rewrite length_take. lia.
  - intros u Hu. apply elem_of_take in Hu as (i & Hu & _).
    apply list_elem_of_lookup_2 in Hu. by apply elem_of_find_singleton in Hu.
Qed.

Section DetailFacts.
Variable w : world.

Lemma product_detail_found pid p fid :
  Bson.is_valid pid = true →
  Mongo.find_one {[ "_id" := VOid (PyStr.lower pid) ]} (products w) = Some p →
  p !! "farmer_id" = Some fid →
  product_detail pid w =
    (Ok (Render "products/detail.html"
           [("product", CDoc (Some p));
            ("farmer", CDoc (Mongo.find_one {[ "_id" := fid ]} (users w)))]), w).
Proof.
  intros Hv Hp Hf. unfold product_detail. run. simpl. rewrite Hv.
  cbn beta iota. rewrite Hp. cbn beta iota. by rewrite Hf.
Qed.

Lemma product_detail_no_farmer_field pid p :
  Bson.is_valid pid = true →
  Mongo.find_one {[ "_id" := VOid (PyStr.lower pid) ]} (products w) = Some p →
  p !! "farmer_id" = None →
  product_detail pid w =
    (Ok (Redirect "product_list"),
     with_flashed (flashed w ++ [("Error loading product", "error")]) w).
Proof.
  intros Hv Hp Hf. unfold product_detail. run. simpl. rewrite Hv.
  cbn beta iota. rewrite Hp. cbn beta iota. by rewrite Hf.
Qed.
End DetailFacts.

(** X26.  A product found by a well-formed identifier, in any letter case,
    is rendered together with the user its [farmer_id] names, or with no
    farmer when no such user is stored; a product without [farmer_id] gives
    the generic "Error loading product" redirect.  In both cases the world
    is otherwise unchanged. *)
Theorem X26_product_detail_found (w : world) (pid : string) (p : doc) :
  Bson.is_valid pid = true →
  Mongo.find_one {[ "_id" := VOid (PyStr.lower pid) ]} (products w) = Some p →
  (∀ fid, p !! "farmer_id" = Some fid →
     product_detail pid w =
       (Ok (Render "products/detail.html"
              [("product", CDoc (Some p));
               ("farmer", CDoc (Mongo.find_one {[ "_id" := fid ]} (users w)))]),
        w)) ∧
  (p !! "farmer_id" = None →
     product_detail pid w =
       (Ok (Redirect "product_list"),
        with_flashed (flashed w ++ [("Error loading product", "error")]) w)).
Proof.
  intros Hv Hp. split.
  - intros fid. by apply product_detail_found.
  - by apply product_detail_no_farmer_field.
Qed.

Lemma X26_product_detail_found_witness :
  let p : doc := {[ "_id" := VOid "65f0a1b2c3d4e5f6000000a1";
                    "name" := VStr "Apples";
                    "farmer_id" := VOid "65f0a1b2c3d4e5f6000000ff" ]} in
  let w := with_products [p] Sample.bob_world in
  (Bson.is_valid "65F0A1B2C3D4E5F6000000A1" = true ∧
   Mongo.find_one {[ "_id" := VOid (PyStr.lower "65F0A1B2C3D4E5F6000000A1") ]}
     (products w) = Some p) ∧
  product_detail "65F0A1B2C3D4E5F6000000A1" w =
    (Ok (Render "products/detail.html"
           [("product", CDoc (Some p)); ("farmer", CDoc None)]), w).
Proof.
  intros p w.
  assert (Bson.is_valid "65F0A1B2C3D4E5F6000000A1" = true ∧
          Mongo.find_one
            {[ "_id" := VOid (PyStr.lower "65F0A1B2C3D4E5F6000000A1") ]}
            (products w) = Some p) as [Hv Hp] by compute_done.
  split; [by split|].
  destruct (X26_product_detail_found w "65F0A1B2C3D4E5F6000000A1" p Hv Hp)
    as [Hfound _].
  rewrite (Hfound (VOid "65f0a1b2c3d4e5f6000000ff")); [|compute_done].
  reflexivity.
Defined.
